(** * football_predictions: the data collector

    A shallow embedding of [data_collection/data_collector.py]: the
    [DataCollector] class that downloads season tables from
    football-data.co.uk, merges and enriches them ([_process_data]) and
    rolls them up per team ([compute_team_statistics]).

    pandas tables are modelled row by row: a frame is an ordered list of
    column labels and a list of rows, each row a finite map from label to
    cell.  The network, the CSV reader, the date parser, the random
    identifier source and the [cities] asset are parameters of the model. *)

From Stdlib Require Import ZArith QArith Ascii String.
From stdpp Require Import gmap strings list pretty sorting.

Open Scope Z_scope.
Open Scope string_scope.

(** ** Cells, frames and exceptions *)

Record Timestamp := { year : Z; month : Z; day : Z }.

(** A cell of a frame.  [NA] stands for every pandas missing marker (NaN,
    None, NaT). *)
Inductive value :=
| NA
| VInt (n : Z)
| VFloat (q : Q)
| VStr (s : string)
| VDate (t : Timestamp).

Definition isna (v : value) : bool :=
  match v with NA => true | _ => false end.

Inductive exn :=
| ValueError (msg : string)
| KeyError (keys : list string)
| TypeError (msg : string)
| ReadError (msg : string).

Inductive result (A : Type) :=
| Ok (a : A)
| Raise (e : exn).
Arguments Ok {A} a.
Arguments Raise {A} e.

Definition is_ok {A} (r : result A) : bool :=
  match r with Ok _ => true | Raise _ => false end.

#[global] Instance result_ret : MRet result := λ A a, Ok a.
#[global] Instance result_bind : MBind result := λ A B f r,
  match r with Ok a => f a | Raise e => Raise e end.

Fixpoint mapR {A B} (f : A → result B) (l : list A) : result (list B) :=
  match l with
  | [] => Ok []
  | a :: l' => b ← f a; bs ← mapR f l'; Ok (b :: bs)
  end.

Record DataFrame := {
  columns : list string;
  rows : list (gmap string value)
}.

(** The cell of row [r] under label [c]; a label the row does not carry
    reads as missing, which is how [pd.concat] fills absent columns. *)
Definition cell (r : gmap string value) (c : string) : value :=
  default NA (r !! c).

(** [df[c]] *)
Definition getitem (df : DataFrame) (c : string) : result (list value) :=
  if decide (c ∈ columns df) then Ok (map (λ r, cell r c) (rows df))
  else Raise (KeyError [c]).

(** [df[cols]] for a list of labels *)
Definition select (cols : list string) (df : DataFrame) : result DataFrame :=
  match filter (λ c, c ∉ columns df) cols with
  | [] => Ok {| columns := cols; rows := rows df |}
  | missing => Raise (KeyError missing)
  end.

(** Position of a new or overwritten column, as [DataFrame.assign] and
    [df[c] = ...] place it: in place when the label exists, last otherwise. *)
Definition with_column (c : string) (cols : list string) : list string :=
  if decide (c ∈ cols) then cols else cols ++ [c].

(** Assigning a scalar broadcasts it to every row. *)
Definition assign_scalar (c : string) (v : value) (df : DataFrame) : DataFrame :=
  {| columns := with_column c (columns df);
     rows := map (λ r, <[c := v]> r) (rows df) |}.

(** Assigning a Series aligns it on the (dense, 0-based) row index. *)
Definition assign_series (c : string) (vs : list value) (df : DataFrame) : DataFrame :=
  {| columns := with_column c (columns df);
     rows := imap (λ i r, <[c := default NA (vs !! i)]> r) (rows df) |}.

(** Assigning a plain list requires its length to match the index. *)
Definition assign_list (c : string) (vs : list value) (df : DataFrame) : result DataFrame :=
  if decide (length vs = length (rows df)) then Ok (assign_series c vs df)
  else Raise (ValueError "Length of values does not match length of index").

(** [pd.concat(frames, ignore_index=True)]: the labels of all frames in
    order of first appearance, the rows of all frames in order.  The cells
    are carried over as they are: the number type of a column (an integer
    column that has to hold a missing value or a float of another frame
    becomes a float column) is not followed. *)
Definition union_columns (acc cols : list string) : list string :=
  acc ++ filter (λ c, c ∉ acc) cols.

(** Rows are cut down to the labels of their own frame. *)
Definition frame_rows (df : DataFrame) : list (gmap string value) :=
  map (λ r, filter (λ kv, kv.1 ∈ columns df) r) (rows df).

Definition pd_concat (frames : list DataFrame) : result DataFrame :=
  match frames with
  | [] => Raise (ValueError "No objects to concatenate")
  | _ => Ok {| columns := foldl union_columns [] (map columns frames);
               rows := concat (map frame_rows frames) |}
  end.

(** [df.dropna(how="all", axis=1)] *)
Definition all_missing (df : DataFrame) (c : string) : bool :=
  forallb (λ r, isna (cell r c)) (rows df).

Definition dropna_all_columns (df : DataFrame) : DataFrame :=
  {| columns := filter (λ c, all_missing df c = false) (columns df);
     rows := rows df |}.

(** An integer cell is an int64: sums wrap around on overflow. *)
Definition int64 (z : Z) : Z := (z + 2 ^ 63) mod 2 ^ 64 - 2 ^ 63.


(** Element-wise [+] of two Series cells: numbers add (two integers in
    int64), text concatenates, a missing operand gives a missing sum. *)
Definition add_value (a b : value) : result value :=
  match a, b with
  | VInt x, VInt y => Ok (VInt (int64 (x + y)))
  | VInt x, VFloat y => Ok (VFloat (inject_Z x + y))
  | VFloat x, VInt y => Ok (VFloat (x + inject_Z y))
  | VFloat x, VFloat y => Ok (VFloat (x + y))
  | NA, _ | _, NA => Ok NA
  | VStr x, VStr y => Ok (VStr (x ++ y))
  | _, _ => Raise (TypeError "unsupported operand type(s) for +")
  end.

Fixpoint series_add (xs ys : list value) : result (list value) :=
  match xs, ys with
  | x :: xs', y :: ys' => v ← add_value x y; vs ← series_add xs' ys'; Ok (v :: vs)
  | _, _ => Ok []
  end.

(** ** Strings built by the f-strings of the source *)

Definition str (n : Z) : string := pretty n.

(** [s[-2:]] *)
Definition last2 (s : string) : string :=
  substring (String.length s - 2) 2 s.

(** [s[:8]] *)
Definition first8 (s : string) : string := substring 0 8 s.

(** ** The collector object and its environment *)

Record DataCollector := {
  league : string;
  all_data : list DataFrame
}.

(** [DataCollector.__init__] *)
Definition __init__ (league : string) : DataCollector :=
  {| league := league; all_data := [] |}.

(** What a call makes observable besides its return value. *)
Inductive event :=
| HttpGet (url : string)
| Print (line : string)
| ToCsv (filename : string) (df : DataFrame).

(** The mutable state a method runs in: the collector it is called on, the
    events emitted so far and the number of identifiers drawn from the
    random source. *)
Record World := {
  self : DataCollector;
  trace : list event;
  uuid_draws : nat
}.

(** Methods are state transformers that return or raise. *)
Definition M (A : Type) : Type := World → World * result A.

#[global] Instance M_ret : MRet M := λ A a w, (w, Ok a).
#[global] Instance M_bind : MBind M := λ A B f m w,
  match m w with
  | (w', Ok a) => f a w'
  | (w', Raise e) => (w', Raise e)
  end.

Definition lift {A} (r : result A) : M A := λ w, (w, r).

Definition get_self : M DataCollector := λ w, (w, Ok (self w)).

Definition emit (e : event) : M unit := λ w,
  ({| self := self w; trace := trace w ++ [e]; uuid_draws := uuid_draws w |}, Ok ()).

(** [self.all_data.append(df)] *)
Definition append_all_data (df : DataFrame) : M unit := λ w,
  ({| self := {| league := league (self w); all_data := all_data (self w) ++ [df] |};
      trace := trace w; uuid_draws := uuid_draws w |}, Ok ()).

(** What [requests.get] does: it returns a response or raises a
    [requests.RequestException]. *)
Inductive http_outcome :=
| Response (status_code : Z) (text : string)
| RequestException (e : string).

(** A city of the static reference table [assets.cities.cities]: each key
    of the table is a home-team name, each entry carries a display name and
    coordinates. *)
Record City := { name : string; lat : Q; lon : Q }.

(** [DataCollector._construct_url] *)
Definition _construct_url (self : DataCollector) (year : Z) : result string :=
  if decide (league self = "serie_a") then
    Ok ("https://www.football-data.co.uk/mmz4281/"
          ++ last2 (str year) ++ last2 (str (year + 1)) ++ "/I1.csv")
  else if decide (league self = "epl") then
    Ok ("https://www.football-data.co.uk/mmz4281/"
          ++ last2 (str year) ++ last2 (str (year + 1)) ++ "/E0.csv")
  else Raise (ValueError "Invalid league. Must be 'serie_a' or 'epl'.").

(** [range(year_start, year_end + 1)] *)
Definition range (start stop : Z) : list Z := seqZ start (stop - start).

(** The season label computed from one element of the parsed Date column;
    the attributes of NaT are NaN, every comparison with NaN is false and
    NaN formats as [nan]. *)
Definition season_label (date : value) : value :=
  match date with
  | VDate d =>
      if decide (month d >= 8) then VStr (str (year d) ++ "/" ++ str (year d + 1))
      else VStr (str (year d - 1) ++ "/" ++ str (year d))
  | _ => VStr "nan/nan"
  end.

Section Collector.

(** The remote archive: the outcome of a GET for each URL. *)
Variable remote : string → http_outcome.

(** [pd.read_csv(StringIO(text), on_bad_lines="skip")] *)
Variable read_csv : string → result DataFrame.

(** The scalar parser behind [pd.to_datetime(..., dayfirst=True)], for a
    cell that is neither missing nor already a timestamp; [None] when the
    cell does not parse. *)
Variable parse_datetime : value → option Timestamp.

(** [uuid.uuid4().hex], by number of the draw. *)
Variable uuid4_hex : nat → string.

(** [assets.cities.cities] *)
Variable cities : gmap string City.

(** [requests.get(url)] *)
Definition requests_get (url : string) : M http_outcome :=
  _ ← emit (HttpGet url); mret (remote url).

(** [print(...)] *)
Definition print (line : string) : M unit := emit (Print line).

(** One iteration of the loop of [collect_data]. *)
Definition fetch_year (year : Z) : M unit :=
  self ← get_self;
  url ← lift (_construct_url self year);
  r ← requests_get url;
  match r with
  | Response status_code text =>
      if decide (status_code = 200) then
        df ← lift (read_csv text);
        append_all_data df
      else
        print ("Data for season " ++ str year ++ "/" ++ str (year + 1)
                 ++ " not found or could not be retrieved.")
  | RequestException e =>
      print ("Request failed for season " ++ str year ++ "/" ++ str (year + 1)
               ++ ": " ++ e)
  end.

Fixpoint fetch_years (years : list Z) : M unit :=
  match years with
  | [] => mret ()
  | year :: years' => _ ← fetch_year year; fetch_years years'
  end.

(** [pd.to_datetime(series, dayfirst=True)], cell by cell: [parse_datetime]
    is what pandas makes of a cell of the Series.  Which cells of a Series
    pandas refuses can depend on the other cells as well (it settles on one
    format for the Series); the model answers for each cell on its own. *)
Definition to_datetime_cell (v : value) : result value :=
  match v with
  | NA => Ok NA
  | VDate d => Ok (VDate d)
  | _ => match parse_datetime v with
         | Some d => Ok (VDate d)
         | None => Raise (ValueError "time data doesn't match format")
         end
  end.

Definition to_datetime (series : list value) : result (list value) :=
  mapR to_datetime_cell series.

(** [[uuid.uuid4().hex[:8] for _ in range(n)]] *)
Definition uuid_list (n : nat) : M (list value) := λ w,
  ({| self := self w; trace := trace w; uuid_draws := (uuid_draws w + n)%nat |},
   Ok (map (λ i, VStr (first8 (uuid4_hex (uuid_draws w + i)%nat))) (seq 0 n))).

(** [cities[x][field] if x in cities else None] *)
Definition city_lookup (field : City → value) (x : value) : value :=
  match x with
  | VStr s => match cities !! s with Some c => field c | None => NA end
  | _ => NA
  end.

(** The columns as ordered by the end of [_process_data]. *)
Definition reorder (columns : list string) : list string :=
  ["game_id"]
    ++ take 3 (filter (λ col, col ∉ ["game_id"; "TG"]) columns)
    ++ ["TG"]
    ++ drop 3 (filter (λ col, col ∉ ["game_id"; "TG"; "TG"]) columns).

(** The chain [assign(...).dropna(how="all", axis=1)] of [_process_data],
    given the concatenated frame and the keyword arguments that are
    evaluated before [assign] is entered. *)
Definition derive (league : string) (all_data_df : DataFrame)
    (game_id TG city_name lat_ lon_ : list value) : result DataFrame :=
  let x := assign_scalar "Div" (VStr league) all_data_df in
  date ← getitem x "Date";
  date ← to_datetime date;
  let x := assign_series "Date" date x in
  date ← getitem x "Date";
  dates ← to_datetime date;
  x ← assign_list "season" (map season_label dates) x;
  x ← assign_list "game_id" game_id x;
  let x := assign_series "TG" TG x in
  let x := assign_series "city_name" city_name x in
  let x := assign_series "lat" lat_ x in
  let x := assign_series "lon" lon_ x in
  Ok (dropna_all_columns x).

(** The keyword arguments of [assign] that read the concatenated frame,
    in the order they are evaluated, then the chain itself. *)
Definition enrich (league : string) (all_data_df : DataFrame)
    (game_id : list value) : result DataFrame :=
  fthg ← getitem all_data_df "FTHG";
  ftag ← getitem all_data_df "FTAG";
  TG ← series_add fthg ftag;
  home ← getitem all_data_df "HomeTeam";
  let city_name := map (city_lookup (λ c, VStr (name c))) home in
  let lat_ := map (city_lookup (λ c, VFloat (lat c))) home in
  let lon_ := map (city_lookup (λ c, VFloat (lon c))) home in
  derive league all_data_df game_id TG city_name lat_ lon_.

(** The first statements of [_process_data]: the concatenation, the
    identifiers drawn for [game_id], and the enriched frame. *)
Definition merged_frame : M DataFrame :=
  self ← get_self;
  all_data_df ← lift (pd_concat (all_data self));
  game_id ← uuid_list (length (rows all_data_df));
  lift (enrich (league self) all_data_df game_id).

(** [DataCollector._process_data] *)
Definition _process_data (write_csv : bool) : M DataFrame :=
  all_data_df ← merged_frame;
  let cols := reorder (columns all_data_df) in
  all_data_df ← lift (select cols all_data_df);
  _ ← (if write_csv then
         self ← get_self;
         let filename := league self ++ ".csv" in
         _ ← emit (ToCsv filename all_data_df);
         print ("Data written to " ++ filename)
       else mret ());
  mret all_data_df.

(** [DataCollector.collect_data] *)
Definition collect_data (year_start year_end : Z) (write_csv : bool) : M DataFrame :=
  _ ← fetch_years (range year_start (year_end + 1));
  _process_data write_csv.

End Collector.

(** ** Team statistics *)

(** A float64 as far as the statistics need it: the results of dividing by
    zero, or a finite number (kept exact). *)
Inductive float :=
| NaN
| Inf (negative : bool)
| Finite (q : Q).

(** Division of two float64 columns, cell by cell: pandas raises nothing
    on a zero denominator.  The columns are float64 or int64 as long as
    each side of the merge has a group; a side without any group brings
    columns without a number type, and what [fillna(0)] and the division
    make of those has changed between pandas versions. *)
Definition fdiv (x y : Q) : float :=
  if Qeq_bool y 0 then
    if Qeq_bool x 0 then NaN else Inf (negb (Qle_bool 0 x))
  else Finite (x / y).

(** The aggregates of one side (home or away) of one team. *)
Record SideStats := {
  Games : Z;
  Wins : Z;
  Draws : Z;
  Goals : Q
}.

Record TeamStats := {
  Team : string;
  HomeGames : Z; HomeWins : Z; HomeDraws : Z; HomeGoals : Q;
  AwayGames : Z; AwayWins : Z; AwayDraws : Z; AwayGoals : Q;
  TotalGames : Z; TotalWins : Z; TotalDraws : Z; TotalGoals : Q;
  WinRatio : float; DrawRatio : float;
  HomeWinRatio : float; AwayWinRatio : float;
  HomeGoalRatio : float; AwayGoalRatio : float;
  TotalGoalRatio : float
}.

(** A group key: [groupby] drops the rows whose key is missing; team names
    are text.  (A key of another kind, a number say, would form a group in
    pandas; the model covers tables whose team cells are names or
    missing.) *)
Definition team_key (v : value) : option string :=
  match v with VStr s => Some s | _ => None end.

(** [x == code], for one cell of the result column *)
Definition eq_code (code : string) (v : value) : bool :=
  match v with VStr s => bool_decide (s = code) | _ => false end.

(** The aggregation ['sum'] of a group: missing cells are skipped, text and
    timestamps do not add up to a number.  The sum is kept exact: neither
    the wrap-around of an int64 sum nor the rounding of a float64 sum is
    followed. *)
Fixpoint sum_cells (vs : list value) : result Q :=
  match vs with
  | [] => Ok 0%Q
  | v :: vs' =>
      rest ← sum_cells vs';
      match v with
      | NA => Ok rest
      | VInt n => Ok (inject_Z n + rest)%Q
      | VFloat q => Ok (q + rest)%Q
      | VStr _ | VDate _ => Raise (TypeError "unsupported operand type(s) for /")
      end
  end.

Definition str_le (s1 s2 : string) : Prop := String.leb s1 s2 = true.

#[global] Instance str_le_dec s1 s2 : Decision (str_le s1 s2).
Proof. unfold str_le. apply _. Defined.

(** The distinct keys of column [by], in sorted order. *)
Definition group_keys (df : DataFrame) (by_ : string) : list string :=
  merge_sort str_le (remove_dups (omap (λ r, team_key (cell r by_)) (rows df))).

Definition group_rows (df : DataFrame) (by_ : string) (t : string)
  : list (gmap string value) :=
  filter (λ r, team_key (cell r by_) = Some t) (rows df).

Definition count_code (code : string) (g : list (gmap string value)) : Z :=
  Z.of_nat (length (filter (λ r, eq_code code (cell r "FTR") = true) g)).

(** The aggregates of one group: the count of the key column, the number
    of rows whose result is [win], the number of draws, the goal sum. *)
Definition agg_group (win goals_col : string) (g : list (gmap string value))
  : result SideStats :=
  goals ← sum_cells (map (λ r, cell r goals_col) g);
  Ok {| Games := Z.of_nat (length g);
        Wins := count_code win g;
        Draws := count_code "D" g;
        Goals := goals |}.

(** [df.groupby(by).agg(...)]: one row per key, indexed by the key.  The
    [KeyError] of [agg] lists the missing labels in sorted order, where the
    goal columns come before [FTR]. *)
Definition groupby_agg (df : DataFrame) (by_ win goals_col : string)
  : result (list (string * SideStats)) :=
  if decide (by_ ∈ columns df) then
    match filter (λ c, c ∉ columns df) [goals_col; "FTR"] with
    | [] => mapR (λ t, s ← agg_group win goals_col (group_rows df by_ t); Ok (t, s))
                 (group_keys df by_)
    | missing => Raise (KeyError missing)
    end
  else Raise (KeyError [by_]).

Definition zero_side : SideStats :=
  {| Games := 0; Wins := 0; Draws := 0; Goals := 0 |}.

(** The row of key [t] of an indexed frame, its cells filled with 0 when
    the key is absent ([how='outer'] then [fillna(0)]). *)
Fixpoint side_of (stats : list (string * SideStats)) (t : string) : SideStats :=
  match stats with
  | [] => zero_side
  | (k, s) :: stats' => if decide (k = t) then s else side_of stats' t
  end.

(** [home_stats.merge(away_stats, left_index=True, right_index=True,
    how='outer')]: the sorted union of the two indexes. *)
Definition outer_index (home_stats away_stats : list (string * SideStats))
  : list string :=
  merge_sort str_le (remove_dups (home_stats.*1 ++ away_stats.*1)).

(** The totals and the ratios of one row. *)
Definition team_row (t : string) (h a : SideStats) : TeamStats :=
  let TotalGames := Games h + Games a in
  let TotalWins := Wins h + Wins a in
  let TotalDraws := Draws h + Draws a in
  let TotalGoals := (Goals h + Goals a)%Q in
  {| Team := t;
     HomeGames := Games h; HomeWins := Wins h; HomeDraws := Draws h; HomeGoals := Goals h;
     AwayGames := Games a; AwayWins := Wins a; AwayDraws := Draws a; AwayGoals := Goals a;
     TotalGames := TotalGames; TotalWins := TotalWins;
     TotalDraws := TotalDraws; TotalGoals := TotalGoals;
     WinRatio := fdiv (inject_Z TotalWins) (inject_Z TotalGames);
     DrawRatio := fdiv (inject_Z TotalDraws) (inject_Z TotalGames);
     HomeWinRatio := fdiv (inject_Z (Wins h)) (inject_Z (Games h));
     AwayWinRatio := fdiv (inject_Z (Wins a)) (inject_Z (Games a));
     HomeGoalRatio := fdiv (Goals h) (inject_Z (Games h));
     AwayGoalRatio := fdiv (Goals a) (inject_Z (Games a));
     TotalGoalRatio := fdiv TotalGoals (inject_Z TotalGames) |}.

(** [DataCollector.compute_team_statistics] *)
Definition compute_team_statistics (df : DataFrame) : result (list TeamStats) :=
  home_stats ← groupby_agg df "HomeTeam" "H" "FTHG";
  away_stats ← groupby_agg df "AwayTeam" "A" "FTAG";
  Ok (map (λ t, team_row t (side_of home_stats t) (side_of away_stats t))
          (outer_index home_stats away_stats)).


(** ** Vocabulary of the properties *)

Section Vocabulary.

Variable remote : string → http_outcome.
Variable read_csv : string → result DataFrame.

(** The fetch of a season fails: the request raises or the status is not
    200 (an invalid league has no URL to fetch). *)
Definition fetch_fails (league : string) (year : Z) : Prop :=
  match _construct_url (__init__ league) year with
  | Ok url =>
      match remote url with
      | Response status_code _ => status_code ≠ 200
      | RequestException _ => True
      end
  | Raise _ => True
  end.

(** The season table a year contributes: none when the fetch fails, an
    exception when the URL cannot be built or the body cannot be read. *)
Definition season_table (league : string) (year : Z) : result (option DataFrame) :=
  url ← _construct_url (__init__ league) year;
  match remote url with
  | Response status_code text =>
      if decide (status_code = 200) then df ← read_csv text; Ok (Some df)
      else Ok None
  | RequestException _ => Ok None
  end.

(** The season tables fetched over a list of years, up to the first
    exception. *)
Fixpoint fetched (league : string) (years : list Z) : list DataFrame :=
  match years with
  | [] => []
  | year :: years' =>
      match season_table league year with
      | Ok (Some df) => df :: fetched league years'
      | Ok None => fetched league years'
      | Raise _ => []
      end
  end.

End Vocabulary.

Section Calls.

Variable remote : string → http_outcome.
Variable read_csv : string → result DataFrame.
Variable parse_datetime : value → option Timestamp.
Variable uuid4_hex : nat → string.
Variable cities : gmap string City.

(** A sequence of [collect_data] calls on one collector, each given by
    [(year_start, year_end, write_csv)]; a call that raises leaves the
    collector as it is at that point, as in Python. *)
Definition run_calls (calls : list (Z * Z * bool)) (w : World) : World :=
  foldl (λ w c, (collect_data remote read_csv parse_datetime uuid4_hex cities
                   c.1.1 c.1.2 c.2 w).1) w calls.

(** The years a call iterates over. *)
Definition years_of (c : Z * Z * bool) : list Z := range c.1.1 (c.1.2 + 1).

End Calls.

(** Two outcomes of [collect_data] agree row for row, the column [game_id]
    apart. *)
Definition same_except_game_id (r1 r2 : result DataFrame) : Prop :=
  match r1, r2 with
  | Ok df1, Ok df2 =>
      columns df1 = columns df2
      ∧ Forall2 (λ x y, ∀ c, c ≠ "game_id" → cell x c = cell y c) (rows df1) (rows df2)
  | Raise e1, Raise e2 => e1 = e2
  | _, _ => False
  end.

(** The row that [assign] makes of row [r] of the concatenated frame. *)
Definition derive_row (league : string) (date game_id TG city_name lat_ lon_ : value)
    (r : gmap string value) : gmap string value :=
  <["lon" := lon_]> (<["lat" := lat_]> (<["city_name" := city_name]>
  (<["TG" := TG]> (<["game_id" := game_id]> (<["season" := season_label date]>
  (<["Date" := date]> (<["Div" := VStr league]> r))))))).

(** The element of a Series at position [i]. *)
Definition at_ (vs : list value) (i : nat) : value := default NA (vs !! i).

(** The frame that [assign] returns, in closed form. *)
Definition assigned (league : string) (base : DataFrame)
    (dates game_id TG city_name lat_ lon_ : list value) : DataFrame :=
  {| columns :=
       with_column "lon" (with_column "lat" (with_column "city_name"
       (with_column "TG" (with_column "game_id" (with_column "season"
       (with_column "Date" (with_column "Div" (columns base))))))));
     rows :=
       imap (λ i r, derive_row league (at_ dates i) (at_ game_id i) (at_ TG i)
                      (at_ city_name i) (at_ lat_ i) (at_ lon_ i) r) (rows base) |}.

(** The Series [all_data_df["HomeTeam"].map(...)] looked up in [cities]. *)
Definition city_series (cities : gmap string City) (field : City → value)
    (base : DataFrame) : list value :=
  map (city_lookup cities field) (map (λ r, cell r "HomeTeam") (rows base)).

(** The labels that [assign] sets. *)
Definition derived_names : list string :=
  ["Div"; "Date"; "season"; "game_id"; "TG"; "city_name"; "lat"; "lon"].

(** The label of the season that starts in year [Y]. *)
Definition season_from (Y : Z) : string := str Y ++ "/" ++ str (Y + 1).

(** The number of rows held by a list of frames. *)
Definition total_rows (frames : list DataFrame) : nat :=
  length (concat (map rows frames)).

(** A closed ratio: a finite number between 0 and 1. *)
Definition in_unit_interval (x : float) : Prop :=
  match x with Finite q => (0 <= q)%Q ∧ (q <= 1)%Q | _ => False end.

(** A goal count that ['sum'] accepts: a number, or missing. *)
Definition is_number (v : value) : bool :=
  match v with NA | VInt _ | VFloat _ => true | VStr _ | VDate _ => false end.


(** Team [t] plays at home (resp. away) in some row of the table. *)
Definition plays (df : DataFrame) (side : string) (t : string) : Prop :=
  ∃ r, r ∈ rows df ∧ cell r side = VStr t.



(** ** A concrete environment

    A small archive with one season of the Premier League, used to run the
    model on concrete inputs. *)

Module Demo.

Definition row (date home away : string) (fthg ftag : Z) (ftr : string)
  : gmap string value :=
  <["Date" := VStr date]> (<["HomeTeam" := VStr home]> (<["AwayTeam" := VStr away]>
  (<["FTHG" := VInt fthg]> (<["FTAG" := VInt ftag]> (<["FTR" := VStr ftr]> ∅))))).

Definition season_2021 : DataFrame :=
  {| columns := ["Div"; "Date"; "HomeTeam"; "AwayTeam"; "FTHG"; "FTAG"; "FTR"];
     rows := [ <["Div" := VStr "E0"]> (row "13/08/2021" "Brentford" "Arsenal" 2 0 "H");
               <["Div" := VStr "E0"]> (row "22/01/2022" "Arsenal" "Burnley" 0 0 "D") ] |}.


Definition url_2021 : string :=
  "https://www.football-data.co.uk/mmz4281/2122/E0.csv".

Definition remote (url : string) : http_outcome :=
  if decide (url = url_2021) then Response 200 "season 2021/2022"
  else Response 404 "".

Definition read_csv (text : string) : result DataFrame :=
  if decide (text = "season 2021/2022") then Ok season_2021
  else Raise (ReadError "No columns to parse from file").

Definition digit (a : ascii) : option Z :=
  let n := Z.of_nat (nat_of_ascii a) in
  if decide (48 ≤ n ≤ 57)%Z then Some (n - 48) else None.

Fixpoint number (acc : Z) (s : string) : option Z :=
  match s with
  | EmptyString => Some acc
  | String a s' => d ← digit a; number (10 * acc + d) s'
  end.

(** Day-first dates written [dd/mm/yyyy]. *)
Definition parse_datetime (v : value) : option Timestamp :=
  match v with
  | VStr s =>
      d ← number 0 (substring 0 2 s);
      m ← number 0 (substring 3 2 s);
      y ← number 0 (substring 6 4 s);
      if decide (String.length s = 10%nat ∧ (1 ≤ d ≤ 31)%Z ∧ (1 ≤ m ≤ 12)%Z) then
        Some {| year := y; month := m; day := d |}
      else None
  | _ => None
  end.

Definition uuid4_hex (i : nat) : string :=
  pretty (10000000 + Z.of_nat i) ++ "4a7e4c1f9b2d03e5a6c7d8e9".

Definition cities : gmap string City :=
  <["Arsenal" := {| name := "London"; lat := 51.555; lon := -0.1086 |}]> ∅.

Definition fresh (league : string) : World :=
  {| self := __init__ league; trace := []; uuid_draws := 0 |}.

Definition collect (year_start year_end : Z) : M DataFrame :=
  collect_data remote read_csv parse_datetime uuid4_hex cities
    year_start year_end false.

(** A collector that holds the season already. *)
Definition loaded : World :=
  {| self := {| league := "epl"; all_data := [season_2021] |};
     trace := []; uuid_draws := 0 |}.

Definition process (write_csv : bool) : M DataFrame :=
  _process_data parse_datetime uuid4_hex cities write_csv.

Definition frame_of (r : result DataFrame) : DataFrame :=
  match r with Ok df => df | Raise _ => {| columns := []; rows := [] |} end.

(** The table returned for [loaded], and its two rows. *)
Definition table : DataFrame := frame_of (process false loaded).2.

Definition row_at (i : nat) : gmap string value := default ∅ (rows table !! i).

(** The statistics of the season. *)
Definition stats : list TeamStats :=
  match compute_team_statistics season_2021 with Ok l => l | Raise _ => [] end.

(** A fresh collector in a process that has drawn identifiers before. *)
Definition fresh_later (league : string) : World :=
  {| self := __init__ league; trace := []; uuid_draws := 7 |}.

(** The collector after one successful call for the season 2021/2022. *)
Definition reused : World := (collect 2021 2021 (fresh "epl")).1.

Definition run (calls : list (Z * Z * bool)) : World → World :=
  run_calls remote read_csv parse_datetime uuid4_hex cities calls.

End Demo.

(** ** Vocabulary of the further properties *)

(** The decimal digit [d] as a character. *)
Definition digit_char (d : Z) : ascii := ascii_of_nat (48 + Z.to_nat d).

(** The last two decimal digits of [n], as text. *)
Definition two_digits (n : Z) : string :=
  String (digit_char ((n / 10) mod 10)) (String (digit_char (n mod 10)) "").

(** The file of a league in the archive. *)
Definition league_file (league : string) : string :=
  if decide (league = "serie_a") then "/I1.csv" else "/E0.csv".

(** The URLs requested, in the order of the requests. *)
Definition requests (t : list event) : list string :=
  omap (λ e, match e with HttpGet url => Some url | _ => None end) t.

(** The files written, with their content. *)
Definition files_written (t : list event) : list (string * DataFrame) :=
  omap (λ e, match e with ToCsv filename df => Some (filename, df) | _ => None end) t.

(** The URL of a season of a supported league. *)
Definition url_of (league : string) (year : Z) : string :=
  match _construct_url (__init__ league) year with Ok url => url | Raise _ => "" end.

(** The file that a call writes: the returned table, when asked to. *)
Definition csv_of (league : string) (write_csv : bool) (r : result DataFrame)
  : list (string * DataFrame) :=
  match r with
  | Ok df => if write_csv then [((league +:+ ".csv")%string, df)] else []
  | Raise _ => []
  end.

(** ** An archive with a damaged file

    The archive of [Demo], except that the season 2022/2023 answers with an
    empty body, which the reader refuses. *)

Module Damaged.

Definition url_2022 : string :=
  "https://www.football-data.co.uk/mmz4281/2223/E0.csv".

Definition remote (url : string) : http_outcome :=
  if decide (url = url_2022) then Response 200 "" else Demo.remote url.

Definition collect (year_start year_end : Z) (write_csv : bool) : M DataFrame :=
  collect_data remote Demo.read_csv Demo.parse_datetime Demo.uuid4_hex Demo.cities
    year_start year_end write_csv.

(** A season file that has its header line and no match. *)
Definition header_only : DataFrame :=
  {| columns := ["Div"; "Date"; "HomeTeam"; "AwayTeam"; "FTHG"; "FTAG"; "FTR"];
     rows := [] |}.

Definition loaded_header_only : World :=
  {| self := {| league := "epl"; all_data := [header_only] |};
     trace := []; uuid_draws := 0 |}.

End Damaged.

(** A concatenated frame that [_process_data] can turn into a table: the
    four columns it reads are there, every date parses, every pair of goal
    counts adds up, and some row has both goal counts. *)
Definition processable (parse_datetime : value → option Timestamp)
    (base : DataFrame) : Prop :=
  (∀ c, c ∈ ["FTHG"; "FTAG"; "HomeTeam"; "Date"] → c ∈ columns base)
  ∧ (∀ r, r ∈ rows base →
       is_ok (to_datetime_cell parse_datetime (cell r "Date")) = true
       ∧ is_ok (add_value (cell r "FTHG") (cell r "FTAG")) = true)
  ∧ ∃ r, r ∈ rows base
         ∧ isna (cell r "FTHG") = false ∧ isna (cell r "FTAG") = false.


(** The sum of a column of counts. *)
Definition sumZ (l : list Z) : Z := foldr Z.add 0 l.

(** The rows of a table that name a team on one side and, of those, the
    ones with a given result. *)
Definition named_rows (df : DataFrame) (side : string) : list (gmap string value) :=
  filter (λ r, is_Some (team_key (cell r side))) (rows df).

Definition rows_with_result (code : string) (l : list (gmap string value))
  : list (gmap string value) :=
  filter (λ r, eq_code code (cell r "FTR") = true) l.

(** A table whose statistics can be computed: the five columns read are
    there, and a row that names a team on one side has a number (or nothing)
    for the goals of that side. *)
Definition countable (df : DataFrame) : Prop :=
  (∀ c, c ∈ ["HomeTeam"; "AwayTeam"; "FTR"; "FTHG"; "FTAG"] → c ∈ columns df)
  ∧ ∀ r, r ∈ rows df →
      (is_Some (team_key (cell r "HomeTeam")) → is_number (cell r "FTHG") = true)
      ∧ (is_Some (team_key (cell r "AwayTeam")) → is_number (cell r "FTAG") = true).

(** The lines printed, in order. *)
Definition printed (t : list event) : list string :=
  omap (λ e, match e with Print line => Some line | _ => None end) t.

(** The answer of the archive for a season is not a success. *)
Definition fetch_failed (remote : string → http_outcome) (league : string) (year : Z)
  : bool :=
  match remote (url_of league year) with
  | Response status_code _ => negb (bool_decide (status_code = 200))
  | RequestException _ => true
  end.

(** One for a true flag, zero otherwise. *)
Definition one_if (b : bool) : nat := if b then 1%nat else 0%nat.

(** * Properties *)

Open Scope list_scope.
Open Scope Z_scope.

(** ** The fetch loop *)

Section FetchLoop.

Variable remote : string → http_outcome.
Variable read_csv : string → result DataFrame.

Lemma construct_url_league c year :
  _construct_url c year = _construct_url (__init__ (league c)) year.
Proof. reflexivity. Qed.

Lemma range_cons start stop :
  start < stop → range start stop = start :: range (start + 1) stop.
Proof.
  intros Hlt. unfold range.
  replace (stop - start) with (Z.succ (stop - (start + 1))) by lia.
  rewrite seqZ_cons by lia. f_equal. f_equal; lia.
Qed.

Lemma range_empty start stop : stop ≤ start → range start stop = [].
Proof. intros Hle. unfold range. apply seqZ_nil. lia. Qed.

Lemma elem_of_range y start stop : y ∈ range start stop ↔ start ≤ y < stop.
Proof. unfold range. rewrite elem_of_seqZ. lia. Qed.

(** One iteration either appends the season table of the year, leaves the
    accumulation alone, or raises what [season_table] raises. *)
Lemma fetch_year_spec year w :
  let w' := (fetch_year remote read_csv year w).1 in
  league (self w') = league (self w)
  ∧ uuid_draws w' = uuid_draws w
  ∧ match season_table remote read_csv (league (self w)) year with
    | Ok (Some df) =>
        all_data (self w') = all_data (self w) ++ [df]
        ∧ (fetch_year remote read_csv year w).2 = Ok ()
    | Ok None =>
        all_data (self w') = all_data (self w)
        ∧ (fetch_year remote read_csv year w).2 = Ok ()
    | Raise e =>
        all_data (self w') = all_data (self w)
        ∧ (fetch_year remote read_csv year w).2 = Raise e
    end.
Proof.
  unfold fetch_year, season_table, requests_get, print, emit, get_self, lift,
    append_all_data, mbind, M_bind, mret, M_ret; simpl.
  rewrite <- construct_url_league.
  destruct (_construct_url (self w) year) as [url|e]; simpl; [|done].
  destruct (remote url) as [status_code text|msg]; simpl; [|done].
  destruct (decide (status_code = 200)) as [H200|H200]; simpl; [|done].
  destruct (read_csv text) as [df|e]; simpl; done.
Qed.

(** The loop appends exactly the fetched tables, and nothing else of the
    collector changes. *)
Lemma fetch_years_self years w :
  let w' := (fetch_years remote read_csv years w).1 in
  league (self w') = league (self w)
  ∧ uuid_draws w' = uuid_draws w
  ∧ all_data (self w') =
      all_data (self w) ++ fetched remote read_csv (league (self w)) years.
Proof.
  revert w. induction years as [|year years IH]; intros w; simpl.
  - by rewrite app_nil_r.
  - pose proof (fetch_year_spec year w) as (Hl & Hu & Hy). simpl in Hy.
    unfold mbind, M_bind.
    destruct (fetch_year remote read_csv year w) as [w1 [[]|e]] eqn:E; simpl in *.
    + destruct (IH w1) as (Hl' & Hu' & Ha').
      rewrite Hl', Hu', Ha', Hl, Hu.
      destruct (season_table remote read_csv (league (self w)) year) as [[df|]|e];
        destruct Hy as [Hy ?]; try done; rewrite Hy.
      * by rewrite <- app_assoc.
      * done.
    + destruct (season_table remote read_csv (league (self w)) year) as [[df|]|e'];
        destruct Hy as [Hy ?]; try done. by rewrite Hy, app_nil_r.
Qed.

(** What the loop does depends on the world through the collector only. *)
Lemma fetch_years_result years w1 w2 :
  self w1 = self w2 →
  (fetch_years remote read_csv years w1).2 = (fetch_years remote read_csv years w2).2
  ∧ self (fetch_years remote read_csv years w1).1
    = self (fetch_years remote read_csv years w2).1.
Proof.
  revert w1 w2. induction years as [|year years IH]; intros w1 w2 Hself; simpl.
  - done.
  - unfold mbind, M_bind.
    assert ((fetch_year remote read_csv year w1).2 = (fetch_year remote read_csv year w2).2
            ∧ self (fetch_year remote read_csv year w1).1
              = self (fetch_year remote read_csv year w2).1) as [H2 H1].
    { unfold fetch_year, requests_get, print, emit, get_self, lift,
        append_all_data, mbind, M_bind, mret, M_ret; simpl.
      rewrite Hself.
      destruct (_construct_url (self w2) year) as [url|e]; simpl; [|done].
      destruct (remote url) as [status_code text|msg]; simpl; [|done].
      destruct (decide (status_code = 200)) as [H200|H200]; simpl; [|done].
      destruct (read_csv text) as [df|e]; simpl; done. }
    destruct (fetch_year remote read_csv year w1) as [w1' [[]|e1]];
      destruct (fetch_year remote read_csv year w2) as [w2' [[]|e2]];
      simpl in *; try done.
    by apply IH.
Qed.

(** When no fetch succeeds the loop completes and appends nothing. *)
Lemma fetch_years_all_fail years w :
  (league (self w) = "serie_a" ∨ league (self w) = "epl") →
  (∀ y, y ∈ years → fetch_fails remote (league (self w)) y) →
  (fetch_years remote read_csv years w).2 = Ok ()
  ∧ self (fetch_years remote read_csv years w).1 = self w.
Proof.
  revert w. induction years as [|year years IH]; intros w Hlg Hfail; simpl.
  - done.
  - pose proof (fetch_year_spec year w) as (Hl & Hu & Hy). simpl in Hy.
    assert (season_table remote read_csv (league (self w)) year = Ok None) as Hst.
    { specialize (Hfail year ltac:(left)). unfold fetch_fails in Hfail.
      unfold season_table.
      destruct (_construct_url (__init__ (league (self w))) year) as [url|e] eqn:Eu; simpl.
      - destruct (remote url) as [status_code text|msg]; [|done].
        by destruct (decide (status_code = 200)) as [H200|H200].
      - unfold _construct_url in Eu; simpl in Eu.
        destruct Hlg as [Hlg|Hlg]; rewrite Hlg in Eu; by repeat case_decide. }
    rewrite Hst in Hy. destruct Hy as [Ha Hr].
    unfold mbind, M_bind.
    destruct (fetch_year remote read_csv year w) as [w1 [[]|e]]; simpl in *; [|done].
    assert (self w1 = self w) as Hs.
    { destruct (self w1), (self w); simpl in *; congruence. }
    destruct (IH w1) as [? ?].
    + by rewrite Hl.
    + intros y Hy. rewrite Hl. apply Hfail. by right.
    + split; [done | congruence].
Qed.

End FetchLoop.
(** ** Frames *)

Lemma getitem_Ok df c vs :
  getitem df c = Ok vs → c ∈ columns df ∧ vs = map (λ r, cell r c) (rows df).
Proof. unfold getitem. case_decide; naive_solver. Qed.

Lemma getitem_length df c vs : getitem df c = Ok vs → length vs = length (rows df).
Proof. intros [_ ->]%getitem_Ok. by rewrite length_map. Qed.

Lemma rows_assign_series c vs df i :
  rows (assign_series c vs df) !! i = (λ r, <[c := at_ vs i]> r) <$> rows df !! i.
Proof. unfold assign_series; simpl. by rewrite list_lookup_imap. Qed.

Lemma length_assign_series c vs df :
  length (rows (assign_series c vs df)) = length (rows df).
Proof. unfold assign_series; simpl. by rewrite length_imap. Qed.

Lemma elem_of_with_column c c' cols :
  c' ∈ with_column c cols ↔ c' = c ∨ c' ∈ cols.
Proof.
  unfold with_column. destruct (decide (c ∈ cols)) as [Hin|Hin].
  - split; [auto | by intros [->|]].
  - rewrite elem_of_app, list_elem_of_singleton. tauto.
Qed.

Lemma assign_list_Ok c vs df x :
  assign_list c vs df = Ok x → length vs = length (rows df) ∧ x = assign_series c vs df.
Proof. unfold assign_list. case_decide; naive_solver. Qed.

Lemma mapR_length {A B} (f : A → result B) l l' :
  mapR f l = Ok l' → length l' = length l.
Proof.
  revert l'. induction l as [|a l IH]; intros l'; simpl.
  - by intros [= <-].
  - unfold mbind, result_bind. destruct (f a); [|done].
    destruct (mapR f l); [|done]. intros [= <-]. simpl. f_equal. by apply IH.
Qed.

Lemma mapR_lookup {A B} (f : A → result B) l l' i a :
  mapR f l = Ok l' → l !! i = Some a → ∃ b, l' !! i = Some b ∧ f a = Ok b.
Proof.
  revert l' i. induction l as [|a0 l IH]; intros l' i; simpl; [done|].
  unfold mbind, result_bind. destruct (f a0) eqn:E0; [|done].
  destruct (mapR f l) eqn:E; [|done]. intros [= <-].
  destruct i as [|i]; simpl.
  - intros [= <-]. eauto.
  - intros Hi. by eapply IH.
Qed.

Lemma series_add_lookup xs ys vs i x y :
  series_add xs ys = Ok vs → xs !! i = Some x → ys !! i = Some y →
  ∃ v, vs !! i = Some v ∧ add_value x y = Ok v.
Proof.
  revert ys vs i. induction xs as [|x0 xs IH]; intros [|y0 ys] vs i; simpl; try done.
  unfold mbind, result_bind. destruct (add_value x0 y0) eqn:E0; [|done].
  destruct (series_add xs ys) eqn:E; [|done]. intros [= <-].
  destruct i as [|i]; simpl.
  - intros [= <-] [= <-]. eauto.
  - intros Hx Hy. by eapply IH.
Qed.

Section Dates.

Variable parse_datetime : value → option Timestamp.

Lemma to_datetime_cell_idem v d :
  to_datetime_cell parse_datetime v = Ok d → to_datetime_cell parse_datetime d = Ok d.
Proof.
  unfold to_datetime_cell.
  destruct v; try (destruct (parse_datetime _)); intros [= <-]; done.
Qed.

Lemma to_datetime_idem l l' :
  to_datetime parse_datetime l = Ok l' → to_datetime parse_datetime l' = Ok l'.
Proof.
  unfold to_datetime. revert l'. induction l as [|v l IH]; intros l'; simpl.
  - by intros [= <-].
  - unfold mbind, result_bind.
    destruct (to_datetime_cell parse_datetime v) as [d|] eqn:Ed; [|done].
    destruct (mapR _ l) as [ds|] eqn:E; [|done]. intros [= <-]. simpl.
    unfold mbind, result_bind.
    by rewrite (to_datetime_cell_idem _ _ Ed), (IH _ eq_refl).
Qed.

End Dates.

(** Reading back a column that was just assigned. *)
Lemma getitem_assign_series c vs df :
  length vs = length (rows df) → getitem (assign_series c vs df) c = Ok vs.
Proof.
  intros Hlen. unfold getitem. rewrite decide_True by (apply elem_of_with_column; by left).
  f_equal. apply list_eq. intros i. rewrite list_lookup_fmap, rows_assign_series.
  destruct (rows df !! i) as [r|] eqn:Er; simpl.
  - unfold cell, at_. rewrite lookup_insert_eq. simpl.
    destruct (lookup_lt_is_Some_2 vs i) as [v Hv].
    { rewrite Hlen. by eapply lookup_lt_Some. }
    by rewrite Hv.
  - symmetry. apply lookup_ge_None. rewrite Hlen. by apply lookup_ge_None.
Qed.

Section Derive.

Variable parse_datetime : value → option Timestamp.

Lemma cell_insert_ne (r : gmap string value) c c' v :
  c ≠ c' → cell (<[c := v]> r) c' = cell r c'.
Proof. intros Hne. unfold cell. by rewrite lookup_insert_ne. Qed.

Lemma cell_insert_eq (r : gmap string value) c v : cell (<[c := v]> r) c = v.
Proof. unfold cell. by rewrite lookup_insert_eq. Qed.

(** [derive] succeeds exactly when the Date column exists and parses and
    the identifier list fits; its result is the frame [assigned] with the
    all-missing columns dropped. *)
Lemma derive_eq lg base gid tg cn la lo :
  derive parse_datetime lg base gid tg cn la lo =
    (date ← getitem base "Date";
     dates ← to_datetime parse_datetime date;
     if decide (length gid = length (rows base))
     then Ok (dropna_all_columns (assigned lg base dates gid tg cn la lo))
     else Raise (ValueError "Length of values does not match length of index")).
Proof.
  unfold derive.
  assert (getitem (assign_scalar "Div" (VStr lg) base) "Date" = getitem base "Date") as ->.
  { unfold getitem, assign_scalar; simpl.
    assert ("Date" ∈ with_column "Div" (columns base) ↔ "Date" ∈ columns base) as Hiff.
    { rewrite elem_of_with_column. split; [by intros [?|?] | auto]. }
    destruct (decide ("Date" ∈ columns base)) as [Hin|Hin].
    - rewrite decide_True by (by apply Hiff). f_equal.
      rewrite <- list_fmap_compose. apply list_fmap_ext. intros i r _. simpl.
      by apply cell_insert_ne.
    - rewrite decide_False by (by rewrite Hiff). done. }
  destruct (getitem base "Date") as [date|e] eqn:Edate; cbn [mbind result_bind]; [|done].
  pose proof (getitem_length _ _ _ Edate) as Hlen.
  destruct (to_datetime parse_datetime date) as [dates|e] eqn:Edates;
    cbn [mbind result_bind]; [|done].
  pose proof (mapR_length _ _ _ Edates) as Hlen'.
  assert (length (rows (assign_scalar "Div" (VStr lg) base)) = length (rows base)) as Hdiv.
  { unfold assign_scalar; simpl. by rewrite length_map. }
  rewrite getitem_assign_series by congruence. cbn [mbind result_bind].
  rewrite (to_datetime_idem _ _ _ Edates). cbn [mbind result_bind].
  unfold assign_list. rewrite !length_assign_series, length_map, Hdiv.
  rewrite decide_True by congruence. cbn [mbind result_bind].
  rewrite !length_assign_series, Hdiv.
  destruct (decide (length gid = length (rows base))) as [Hgid|Hgid];
    cbn [mbind result_bind]; [|done].
  f_equal. unfold dropna_all_columns.
  assert (rows (assign_series "lon" lo
     (assign_series "lat" la
        (assign_series "city_name" cn
           (assign_series "TG" tg
              (assign_series "game_id" gid
                 (assign_series "season" (map season_label dates)
                    (assign_series "Date" dates
                       (assign_scalar "Div" (VStr lg) base)))))))) =
          rows (assigned lg base dates gid tg cn la lo)) as Hrows.
  { apply list_eq. intros i. rewrite !rows_assign_series. unfold assigned, assign_scalar; simpl.
    rewrite list_lookup_fmap, list_lookup_imap.
    destruct (rows base !! i) as [r|] eqn:Er; simpl; [|done].
    unfold derive_row. do 6 f_equal.
    unfold at_. rewrite list_lookup_fmap.
    destruct (lookup_lt_is_Some_2 dates i) as [d Hd].
    { rewrite Hlen', Hlen. by eapply lookup_lt_Some. }
    by rewrite Hd. }
  unfold all_missing. rewrite Hrows. done.
Qed.

End Derive.

Lemma select_Ok cols d df :
  select cols d = Ok df →
  columns df = cols ∧ rows df = rows d ∧ ∀ c, c ∈ cols → c ∈ columns d.
Proof.
  unfold select. destruct (filter _ cols) as [|c0 l] eqn:E; [|done].
  intros [= <-]. simpl. split_and!; [done..|].
  intros c Hc. destruct (decide (c ∈ columns d)) as [|Hn]; [done|].
  assert (c ∈ filter (λ c, c ∉ columns d) cols) as Hin by (by apply list_elem_of_filter).
  rewrite E in Hin. by apply elem_of_nil in Hin.
Qed.

Lemma all_missing_false df c :
  all_missing df c = false ↔ ∃ r, r ∈ rows df ∧ isna (cell r c) = false.
Proof.
  unfold all_missing. split.
  - intros H. induction (rows df) as [|r l IH]; simpl in *; [done|].
    destruct (isna (cell r c)) eqn:E; simpl in *.
    + destruct (IH H) as (r' & ? & ?). exists r'. split; [by right|done].
    + exists r. split; [by left|done].
  - intros (r & Hin & Hr). apply not_true_is_false. intros Hall.
    rewrite forallb_forall in Hall. apply list_elem_of_In, Hall in Hin. congruence.
Qed.

Lemma elem_of_dropna df c :
  c ∈ columns (dropna_all_columns df) ↔
  c ∈ columns df ∧ ∃ r, r ∈ rows df ∧ isna (cell r c) = false.
Proof.
  unfold dropna_all_columns; simpl. rewrite list_elem_of_filter, all_missing_false. tauto.
Qed.

Lemma reorder_eq cols :
  reorder cols =
    "game_id" :: take 3 (filter (λ c, c ≠ "game_id" ∧ c ≠ "TG") cols)
      ++ "TG" :: drop 3 (filter (λ c, c ≠ "game_id" ∧ c ≠ "TG") cols).
Proof.
  assert (∀ l : list string,
    (∀ c, c ∈ l ↔ c = "game_id" ∨ c = "TG") →
    filter (λ col, col ∉ l) cols = filter (λ c, c ≠ "game_id" ∧ c ≠ "TG") cols) as Hf.
  { intros l Hl. apply list_filter_iff. intros c. rewrite Hl. tauto. }
  unfold reorder. simpl.
  rewrite (Hf ["game_id"; "TG"]), (Hf ["game_id"; "TG"; "TG"]); [done|..];
    intros c; rewrite !elem_of_cons, elem_of_nil; tauto.
Qed.

Lemma elem_of_reorder c cols :
  c ∈ reorder cols ↔ c = "game_id" ∨ c = "TG" ∨ c ∈ cols.
Proof.
  rewrite reorder_eq. rewrite elem_of_cons, elem_of_app, elem_of_cons.
  set (l := filter _ cols).
  assert (c ∈ l ↔ c ∈ take 3 l ∨ c ∈ drop 3 l) as Hl.
  { rewrite <- elem_of_app, take_drop. done. }
  assert (c ∈ l ↔ (c ≠ "game_id" ∧ c ≠ "TG") ∧ c ∈ cols) as Hf.
  { unfold l. by rewrite list_elem_of_filter. }
  destruct (decide (c = "game_id")), (decide (c = "TG")); tauto.
Qed.

Section Process.

Variable parse_datetime : value → option Timestamp.
Variable uuid4_hex : nat → string.
Variable cities : gmap string City.

Lemma enrich_Ok lg base gid d :
  enrich parse_datetime cities lg base gid = Ok d →
  ∃ dates tg,
    to_datetime parse_datetime (map (λ r, cell r "Date") (rows base)) = Ok dates
    ∧ series_add (map (λ r, cell r "FTHG") (rows base))
                 (map (λ r, cell r "FTAG") (rows base)) = Ok tg
    ∧ length gid = length (rows base)
    ∧ "FTHG" ∈ columns base ∧ "FTAG" ∈ columns base
    ∧ d = dropna_all_columns
            (assigned lg base dates gid tg
               (city_series cities (λ c, VStr (name c)) base)
               (city_series cities (λ c, VFloat (lat c)) base)
               (city_series cities (λ c, VFloat (lon c)) base)).
Proof.
  unfold enrich.
  destruct (getitem base "FTHG") as [fthg|] eqn:E1; cbn [mbind result_bind]; [|done].
  destruct (getitem base "FTAG") as [ftag|] eqn:E2; cbn [mbind result_bind]; [|done].
  destruct (series_add fthg ftag) as [tg|] eqn:E3; cbn [mbind result_bind]; [|done].
  destruct (getitem base "HomeTeam") as [home|] eqn:E4; cbn [mbind result_bind]; [|done].
  rewrite derive_eq.
  destruct (getitem base "Date") as [date|] eqn:E5; cbn [mbind result_bind]; [|done].
  destruct (to_datetime parse_datetime date) as [dates|] eqn:E6;
    cbn [mbind result_bind]; [|done].
  destruct (decide (length gid = length (rows base))) as [Hgid|]; [|done].
  intros [= <-]. exists dates, tg.
  apply getitem_Ok in E1 as [? ->]. apply getitem_Ok in E2 as [? ->].
  apply getitem_Ok in E4 as [_ ->]. apply getitem_Ok in E5 as [_ ->].
  done.
Qed.

Lemma merged_frame_run w :
  merged_frame parse_datetime uuid4_hex cities w =
    match pd_concat (all_data (self w)) with
    | Ok base =>
        let n := length (rows base) in
        ({| self := self w; trace := trace w; uuid_draws := (uuid_draws w + n)%nat |},
         enrich parse_datetime cities (league (self w)) base
           (map (λ i, VStr (first8 (uuid4_hex (uuid_draws w + i)%nat))) (seq 0 n)))
    | Raise e => (w, Raise e)
    end.
Proof.
  unfold merged_frame, get_self, lift, uuid_list, mbind, M_bind. simpl.
  destruct (pd_concat (all_data (self w))); done.
Qed.

Lemma process_data_Ok wc w w' df :
  _process_data parse_datetime uuid4_hex cities wc w = (w', Ok df) →
  ∃ w1 d, merged_frame parse_datetime uuid4_hex cities w = (w1, Ok d)
          ∧ select (reorder (columns d)) d = Ok df
          ∧ self w' = self w1 ∧ uuid_draws w' = uuid_draws w1.
Proof.
  unfold _process_data, mbind, M_bind, lift.
  destruct (merged_frame parse_datetime uuid4_hex cities w) as [w1 [d|e]]; [|done].
  destruct (select (reorder (columns d)) d) as [df'|e] eqn:Es; [|done].
  destruct wc; unfold get_self, emit, print, emit, mret, M_ret; simpl;
    intros [= <- <-]; exists w1, d; done.
Qed.

(** What a successful [_process_data] returns: the frame [assigned] of the
    concatenation, without its all-missing columns, reordered. *)
Lemma process_data_inv wc w w' df :
  _process_data parse_datetime uuid4_hex cities wc w = (w', Ok df) →
  ∃ base dates tg gid,
    pd_concat (all_data (self w)) = Ok base
    ∧ to_datetime parse_datetime (map (λ r, cell r "Date") (rows base)) = Ok dates
    ∧ series_add (map (λ r, cell r "FTHG") (rows base))
                 (map (λ r, cell r "FTAG") (rows base)) = Ok tg
    ∧ gid = map (λ i, VStr (first8 (uuid4_hex (uuid_draws w + i)%nat)))
                (seq 0 (length (rows base)))
    ∧ "FTHG" ∈ columns base ∧ "FTAG" ∈ columns base
    ∧ let post := dropna_all_columns
            (assigned (league (self w)) base dates gid tg
               (city_series cities (λ c, VStr (name c)) base)
               (city_series cities (λ c, VFloat (lat c)) base)
               (city_series cities (λ c, VFloat (lon c)) base)) in
      (merged_frame parse_datetime uuid4_hex cities w).2 = Ok post
      ∧ columns df = reorder (columns post)
      ∧ rows df = rows post
      ∧ "game_id" ∈ columns post ∧ "TG" ∈ columns post.
Proof.
  intros (w1 & d & Hm & Hs & _)%process_data_Ok.
  pose proof Hm as Hm'. rewrite merged_frame_run in Hm.
  destruct (pd_concat (all_data (self w))) as [base|] eqn:Ec; [|done].
  simpl in Hm. injection Hm as _ He.
  apply enrich_Ok in He as (dates & tg & Hd & Ht & Hlen & H1 & H2 & ->).
  apply select_Ok in Hs as (Hcols & Hrows & Hin).
  exists base, dates, tg, (map (λ i, VStr (first8 (uuid4_hex (uuid_draws w + i)%nat)))
                             (seq 0 (length (rows base)))).
  do 6 (split; [done|]). cbv zeta. split_and!; try done.
  - by rewrite Hm'.
  - apply Hin, elem_of_reorder. by left.
  - apply Hin, elem_of_reorder. right; by left.
Qed.

(** Every row of a returned table is a row of the concatenation, enriched. *)
Lemma process_data_rows wc w w' df :
  _process_data parse_datetime uuid4_hex cities wc w = (w', Ok df) →
  ∃ base, pd_concat (all_data (self w)) = Ok base
    ∧ length (rows df) = length (rows base)
    ∧ ∀ i r', rows df !! i = Some r' →
        ∃ r date tg gid,
          rows base !! i = Some r
          ∧ to_datetime_cell parse_datetime (cell r "Date") = Ok date
          ∧ add_value (cell r "FTHG") (cell r "FTAG") = Ok tg
          ∧ r' = derive_row (league (self w)) date (VStr gid) tg
                   (city_lookup cities (λ c, VStr (name c)) (cell r "HomeTeam"))
                   (city_lookup cities (λ c, VFloat (lat c)) (cell r "HomeTeam"))
                   (city_lookup cities (λ c, VFloat (lon c)) (cell r "HomeTeam")) r.
Proof.
  intros (base & dates & tg & gid & Hc & Hd & Ht & -> & _ & _ & Hpost)%process_data_inv.
  simpl in Hpost. destruct Hpost as (_ & _ & Hrows & _).
  exists base. split; [done|]. rewrite Hrows, length_imap. split; [done|].
  intros i r'. rewrite list_lookup_imap.
  destruct (rows base !! i) as [r|] eqn:Er; simpl; [|done]. intros [= <-].
  destruct (mapR_lookup _ _ _ i (cell r "Date") Hd) as (date & Hdi & Hdc).
  { by rewrite list_lookup_fmap, Er. }
  destruct (series_add_lookup _ _ _ i (cell r "FTHG") (cell r "FTAG") Ht)
    as (v & Hvi & Hv); [by rewrite list_lookup_fmap, Er..|].
  exists r, date, v, (first8 (uuid4_hex (uuid_draws w + i)%nat)).
  split_and!; [done..|].
  unfold at_, city_series. rewrite Hdi, Hvi, !list_lookup_fmap, Er. simpl.
  rewrite lookup_seq_lt by (by eapply lookup_lt_Some).
  done.
Qed.

End Process.

(** ** The cells of an enriched row *)

Ltac insert_chain :=
  unfold derive_row, cell;
  repeat first [ rewrite lookup_insert_eq | rewrite lookup_insert_ne by done ];
  try done.

Lemma derive_row_Div lg date gid tg cn la lo r :
  cell (derive_row lg date gid tg cn la lo r) "Div" = VStr lg.
Proof. insert_chain. Qed.

Lemma derive_row_Date lg date gid tg cn la lo r :
  cell (derive_row lg date gid tg cn la lo r) "Date" = date.
Proof. insert_chain. Qed.

Lemma derive_row_season lg date gid tg cn la lo r :
  cell (derive_row lg date gid tg cn la lo r) "season" = season_label date.
Proof. insert_chain. Qed.

Lemma derive_row_game_id lg date gid tg cn la lo r :
  cell (derive_row lg date gid tg cn la lo r) "game_id" = gid.
Proof. insert_chain. Qed.

Lemma derive_row_TG lg date gid tg cn la lo r :
  cell (derive_row lg date gid tg cn la lo r) "TG" = tg.
Proof. insert_chain. Qed.

Lemma derive_row_city_name lg date gid tg cn la lo r :
  cell (derive_row lg date gid tg cn la lo r) "city_name" = cn.
Proof. insert_chain. Qed.

Lemma derive_row_lat lg date gid tg cn la lo r :
  cell (derive_row lg date gid tg cn la lo r) "lat" = la.
Proof. insert_chain. Qed.

Lemma derive_row_lon lg date gid tg cn la lo r :
  cell (derive_row lg date gid tg cn la lo r) "lon" = lo.
Proof. insert_chain. Qed.

Lemma derive_row_other lg date gid tg cn la lo r c :
  c ∉ derived_names →
  cell (derive_row lg date gid tg cn la lo r) c = cell r c.
Proof.
  unfold derived_names. rewrite !not_elem_of_cons. intros (?&?&?&?&?&?&?&?&_).
  unfold derive_row, cell. by rewrite !lookup_insert_ne.
Qed.

Lemma elem_of_assigned_columns lg base dates gid tg cn la lo c :
  c ∈ columns (assigned lg base dates gid tg cn la lo) ↔
  c ∈ derived_names ∨ c ∈ columns base.
Proof.
  unfold assigned, derived_names; simpl.
  rewrite !elem_of_with_column, !elem_of_cons, elem_of_nil. tauto.
Qed.

(** ** The merged table *)

Ltac in_names :=
  unfold derived_names; rewrite !elem_of_cons;
  repeat first [ left; reflexivity | right ].

Ltac not_in_names :=
  unfold derived_names; rewrite !not_elem_of_cons;
  split_and!; [done..|apply not_elem_of_nil].

Section MergedTable.

Variable parse_datetime : value → option Timestamp.
Variable uuid4_hex : nat → string.
Variable cities : gmap string City.

(** A derived column that is not missing in some row of the returned
    table is a column of that table. *)
Lemma column_kept wc w w' df c r :
  _process_data parse_datetime uuid4_hex cities wc w = (w', Ok df) →
  c ∈ derived_names → r ∈ rows df → isna (cell r c) = false →
  c ∈ columns df.
Proof.
  intros (base & dates & tg & gid & _ & _ & _ & _ & _ & _ & Hpost)%process_data_inv
    Hc Hr Hna.
  cbv zeta in Hpost. destruct Hpost as (_ & -> & Hrows & _).
  apply elem_of_reorder. do 2 right. apply elem_of_dropna. split.
  - apply elem_of_assigned_columns. by left.
  - exists r. by rewrite Hrows in Hr.
Qed.

(** C6: for every row of the merged table that carries a match date, the
    season label is "Y/Y+1", where Y is the calendar year of the date when
    its month is at least 8 and the year before when its month is less
    than 8; the columns [Date] and [season] are then part of the table. *)
Theorem season_follows_month_rule wc w w' df i r d :
  _process_data parse_datetime uuid4_hex cities wc w = (w', Ok df) →
  rows df !! i = Some r →
  cell r "Date" = VDate d →
  (8 ≤ month d → cell r "season" = VStr (season_from (year d)))
  ∧ (month d < 8 → cell r "season" = VStr (season_from (year d - 1)))
  ∧ "Date" ∈ columns df ∧ "season" ∈ columns df.
Proof.
  intros Hp Hi Hd. pose proof Hp as (base & _ & _ & Hrow)%process_data_rows.
  destruct (Hrow i r Hi) as (r0 & date & tg & gid & _ & _ & _ & Hr).
  assert (cell r "season" = season_label (VDate d)) as Hs.
  { rewrite <- Hd, Hr. by rewrite derive_row_season, derive_row_Date. }
  assert (r ∈ rows df) as Hin by (by eapply list_elem_of_lookup_2).
  split_and!.
  - intros Hm. rewrite Hs. simpl. by rewrite decide_True by lia.
  - intros Hm. rewrite Hs. simpl. rewrite decide_False by lia.
    unfold season_from. by replace (year d - 1 + 1) with (year d) by lia.
  - eapply column_kept; [done|in_names|done|by rewrite Hd].
  - eapply column_kept; [done|in_names|done|].
    rewrite Hs. simpl. by case_decide.
Qed.

(** C9: for every row of the merged table, if the home team's name is a
    key of the city reference then [city_name], [lat] and [lon] hold the
    values of its entry (which are not missing, and the three columns are
    part of the table); if it is not a key the three fields are missing.
    The lookup is a total function: it never raises. *)
Theorem city_fields_follow_reference wc w w' df i r :
  _process_data parse_datetime uuid4_hex cities wc w = (w', Ok df) →
  rows df !! i = Some r →
  (∀ s c, cell r "HomeTeam" = VStr s → cities !! s = Some c →
     cell r "city_name" = VStr (name c)
     ∧ cell r "lat" = VFloat (lat c)
     ∧ cell r "lon" = VFloat (lon c)
     ∧ "city_name" ∈ columns df ∧ "lat" ∈ columns df ∧ "lon" ∈ columns df)
  ∧ ((∀ s, cell r "HomeTeam" = VStr s → cities !! s = None) →
     cell r "city_name" = NA ∧ cell r "lat" = NA ∧ cell r "lon" = NA).
Proof.
  intros Hp Hi. pose proof Hp as (base & _ & _ & Hrow)%process_data_rows.
  destruct (Hrow i r Hi) as (r0 & date & tg & gid & _ & _ & _ & Hr).
  assert (cell r "HomeTeam" = cell r0 "HomeTeam") as Hh.
  { rewrite Hr. apply derive_row_other. not_in_names. }
  assert (r ∈ rows df) as Hin by (by eapply list_elem_of_lookup_2).
  assert (cell r "city_name"
          = city_lookup cities (λ c, VStr (name c)) (cell r "HomeTeam")) as Hn.
  { rewrite Hh, Hr. apply derive_row_city_name. }
  assert (cell r "lat"
          = city_lookup cities (λ c, VFloat (lat c)) (cell r "HomeTeam")) as Hla.
  { rewrite Hh, Hr. apply derive_row_lat. }
  assert (cell r "lon"
          = city_lookup cities (λ c, VFloat (lon c)) (cell r "HomeTeam")) as Hlo.
  { rewrite Hh, Hr. apply derive_row_lon. }
  split.
  - intros s c Hs Hk. rewrite Hs in Hn, Hla, Hlo. simpl in Hn, Hla, Hlo.
    rewrite Hk in Hn, Hla, Hlo. split_and!; try done.
    + eapply column_kept; [done|in_names|done|by rewrite Hn].
    + eapply column_kept; [done|in_names|done|by rewrite Hla].
    + eapply column_kept; [done|in_names|done|by rewrite Hlo].
  - intros Hnone. rewrite Hn, Hla, Hlo.
    destruct (cell r "HomeTeam") as [| | |s|]; simpl; try done.
    by rewrite (Hnone s eq_refl).
Qed.

End MergedTable.

Lemma season_label_not_missing v : isna (season_label v) = false.
Proof. destruct v; simpl; try done. by case_decide. Qed.

Lemma add_value_not_missing x y v :
  add_value x y = Ok v → isna v = false → isna x = false ∧ isna y = false.
Proof. destruct x, y; simpl; intros [= <-]; done. Qed.

Lemma length_ge_of_distinct (a b c : string) (l : list string) :
  a ≠ b → a ≠ c → b ≠ c → a ∈ l → b ∈ l → c ∈ l → (3 ≤ length l)%nat.
Proof.
  intros Hab Hac Hbc Ha Hb Hc.
  assert ([a; b; c] ⊆+ l) as Hsub.
  { apply NoDup_submseteq.
    - repeat constructor; rewrite ?not_elem_of_cons; split_and?;
        try done; apply not_elem_of_nil.
    - intros x. rewrite !elem_of_cons, elem_of_nil. by intros [->|[->|[->|[]]]]. }
  apply submseteq_length in Hsub. done.
Qed.

Section ColumnOrder.

Variable parse_datetime : value → option Timestamp.
Variable uuid4_hex : nat → string.
Variable cities : gmap string City.

(** C5: every merged table that [_process_data] returns has its columns
    in this order: [game_id], then the first three columns of the
    post-derivation table that are neither [game_id] nor [TG], in their
    original order, then [TG], then all the remaining columns in their
    original order; the rows are those of the post-derivation table.  There
    always are three such columns, so [TG] is the fifth column. *)
Theorem column_order_of_merged_table wc w w' df :
  _process_data parse_datetime uuid4_hex cities wc w = (w', Ok df) →
  ∃ post,
    (merged_frame parse_datetime uuid4_hex cities w).2 = Ok post
    ∧ let others := filter (λ c, c ≠ "game_id" ∧ c ≠ "TG") (columns post) in
      columns df = "game_id" :: take 3 others ++ "TG" :: drop 3 others
      ∧ rows df = rows post
      ∧ (3 ≤ length others)%nat
      ∧ columns df !! 0%nat = Some "game_id"
      ∧ columns df !! 4%nat = Some "TG".
Proof.
  intros (base & dates & tg & gid & Hc & Hd & Ht & Hgid & HF1 & HF2 & Hpost)%process_data_inv.
  cbv zeta in Hpost. destruct Hpost as (Hm & Hcols & Hrows & Hg & HT).
  eexists. split; [exact Hm|]. cbv zeta.
  rewrite reorder_eq in Hcols.
  set (post := dropna_all_columns _) in *.
  set (others := filter _ (columns post)) in *.
  assert (3 ≤ length others)%nat as Hlen.
  { apply elem_of_dropna in HT as (_ & r & Hr & Hna).
    apply list_elem_of_lookup_1 in Hr as [i Hi].
    unfold assigned in Hi; simpl in Hi. rewrite list_lookup_imap in Hi.
    destruct (rows base !! i) as [r0|] eqn:Er0; simpl in Hi; [|done].
    injection Hi as Hi. rewrite <- Hi, derive_row_TG in Hna.
    destruct (series_add_lookup _ _ _ i (cell r0 "FTHG") (cell r0 "FTAG") Ht)
      as (v & Hvi & Hv); [by rewrite list_lookup_fmap, Er0..|].
    unfold at_ in Hna at 1. rewrite Hvi in Hna. simpl in Hna.
    destruct (add_value_not_missing _ _ _ Hv Hna) as [Hh _].
    assert (r ∈ rows post) as Hr.
    { unfold post, dropna_all_columns, assigned; simpl.
      apply list_elem_of_lookup. exists i. rewrite list_lookup_imap, Er0. simpl.
      by rewrite Hi. }
    assert (∀ c, c ∈ derived_names ∨ c ∈ columns base → isna (cell r c) = false →
                 c ≠ "game_id" → c ≠ "TG" → c ∈ others) as Hkeep.
    { intros c Hcin Hcna ? ?. unfold others. apply list_elem_of_filter. split; [done|].
      unfold post. apply elem_of_dropna. split; [by apply elem_of_assigned_columns|].
      exists r. split; [|done]. by unfold post, dropna_all_columns in Hr. }
    apply (length_ge_of_distinct "Div" "season" "FTHG"); try done.
    - apply Hkeep; try done; [left; in_names|]. by rewrite <- Hi, derive_row_Div.
    - apply Hkeep; try done; [left; in_names|].
      rewrite <- Hi, derive_row_season. apply season_label_not_missing.
    - apply Hkeep; try done; [by right|].
      rewrite <- Hi, derive_row_other by not_in_names. done. }
  split_and!; try done.
  - by rewrite Hcols.
  - rewrite Hcols. simpl. apply list_lookup_middle.
    rewrite length_take. lia.
Qed.

End ColumnOrder.

(** ** Calls of [collect_data] *)

Lemma length_concat_frame_rows frames :
  length (concat (map frame_rows frames)) = total_rows frames.
Proof.
  unfold total_rows. induction frames as [|df frames IH]; simpl; [done|].
  rewrite !length_app, IH. unfold frame_rows. by rewrite length_map.
Qed.

Lemma pd_concat_rows frames base :
  pd_concat frames = Ok base → length (rows base) = total_rows frames.
Proof.
  destruct frames as [|df frames]; [done|]. intros [= <-].
  apply (length_concat_frame_rows (df :: frames)).
Qed.

Section Calls.

Variable remote : string → http_outcome.
Variable read_csv : string → result DataFrame.
Variable parse_datetime : value → option Timestamp.
Variable uuid4_hex : nat → string.
Variable cities : gmap string City.

Lemma collect_data_run year_start year_end wc w :
  collect_data remote read_csv parse_datetime uuid4_hex cities year_start year_end wc w =
    match fetch_years remote read_csv (range year_start (year_end + 1)) w with
    | (w1, Ok _) => _process_data parse_datetime uuid4_hex cities wc w1
    | (w1, Raise e) => (w1, Raise e)
    end.
Proof. reflexivity. Qed.

(** [_process_data] never touches the collector. *)
Lemma process_data_self wc w :
  self (_process_data parse_datetime uuid4_hex cities wc w).1 = self w.
Proof.
  unfold _process_data, mbind, M_bind, lift. rewrite merged_frame_run.
  destruct (pd_concat (all_data (self w))) as [base|]; [|done]. simpl.
  destruct (enrich _ _ _ _ _) as [d|]; [|done].
  destruct (select _ d) as [df|]; [|done].
  by destruct wc.
Qed.

Lemma process_data_empty wc w :
  all_data (self w) = [] →
  _process_data parse_datetime uuid4_hex cities wc w
    = (w, Raise (ValueError "No objects to concatenate")).
Proof.
  intros He. unfold _process_data, mbind, M_bind. rewrite merged_frame_run, He. done.
Qed.

(** With an unsupported league the first iteration raises before anything
    else happens. *)
Lemma collect_data_invalid_league year_start year_end wc w :
  league (self w) ≠ "serie_a" → league (self w) ≠ "epl" → year_start ≤ year_end →
  collect_data remote read_csv parse_datetime uuid4_hex cities year_start year_end wc w
    = (w, Raise (ValueError "Invalid league. Must be 'serie_a' or 'epl'.")).
Proof.
  intros H1 H2 Hle. rewrite collect_data_run, range_cons by lia.
  assert (_construct_url (self w) year_start
          = Raise (ValueError "Invalid league. Must be 'serie_a' or 'epl'.")) as Hurl.
  { unfold _construct_url. by rewrite !decide_False. }
  cbn [fetch_years]. unfold fetch_year, get_self, lift, mbind, M_bind. simpl.
  by rewrite Hurl.
Qed.

(** The collector after a call: the league as before, the accumulation
    extended by the tables fetched. *)
Lemma collect_data_self year_start year_end wc w :
  let w' := (collect_data remote read_csv parse_datetime uuid4_hex cities
               year_start year_end wc w).1 in
  league (self w') = league (self w)
  ∧ all_data (self w') =
      all_data (self w)
      ++ fetched remote read_csv (league (self w)) (range year_start (year_end + 1)).
Proof.
  cbv zeta. rewrite collect_data_run.
  pose proof (fetch_years_self remote read_csv (range year_start (year_end + 1)) w)
    as (Hl & _ & Ha). cbv zeta in Hl, Ha.
  destruct (fetch_years _ _ _ w) as [w1 [[]|e]]; simpl in *; [|done].
  by rewrite process_data_self.
Qed.

(** C8: for every league other than serie_a and epl and every range with
    year_start ≤ year_end, [collect_data] raises the invalid-league error
    when it builds the URL of the first year: no request has been sent, the
    accumulation is untouched and no table is returned (the world is left
    exactly as it was). *)
Theorem invalid_league_raises_at_first_url year_start year_end wc w :
  league (self w) ≠ "serie_a" → league (self w) ≠ "epl" → year_start ≤ year_end →
  collect_data remote read_csv parse_datetime uuid4_hex cities year_start year_end wc w
    = (w, Raise (ValueError "Invalid league. Must be 'serie_a' or 'epl'."))
  ∧ _construct_url (self w) year_start
    = Raise (ValueError "Invalid league. Must be 'serie_a' or 'epl'.").
Proof.
  intros H1 H2 Hle. split; [by apply collect_data_invalid_league|].
  unfold _construct_url. by rewrite !decide_False.
Qed.

(** C1 (amended): on an empty accumulation the merge step raises; and a
    [collect_data] call that starts from an empty accumulation and in which
    every year's fetch fails, or whose year range is reversed, raises
    instead of returning a table. *)
Theorem empty_accumulation_raises year_start year_end wc w :
  all_data (self w) = [] →
  (∀ y, year_start ≤ y ≤ year_end → fetch_fails remote (league (self w)) y) →
  _process_data parse_datetime uuid4_hex cities wc w
    = (w, Raise (ValueError "No objects to concatenate"))
  ∧ ∃ msg, (collect_data remote read_csv parse_datetime uuid4_hex cities
              year_start year_end wc w).2 = Raise (ValueError msg).
Proof.
  intros He Hfail. split; [by apply process_data_empty|].
  destruct (decide (league (self w) = "serie_a" ∨ league (self w) = "epl")) as [Hlg|Hlg].
  - rewrite collect_data_run.
    destruct (fetch_years_all_fail remote read_csv (range year_start (year_end + 1)) w)
      as [Hr Hs]; [done| |].
    { intros y Hy%elem_of_range. apply Hfail. lia. }
    destruct (fetch_years _ _ _ w) as [w1 [[]|e]]; simpl in *; [|done].
    rewrite process_data_empty by (by rewrite Hs). eauto.
  - destruct (decide (year_start ≤ year_end)) as [Hle|Hgt].
    + rewrite collect_data_invalid_league by tauto. eauto.
    + rewrite collect_data_run, range_empty by lia. simpl.
      rewrite process_data_empty by done. eauto.
Qed.

(** C10: the accumulation of a collector only grows.  After any sequence
    of [collect_data] calls it is what it was, followed by the tables
    fetched by each call in turn; a single call appends the tables it
    fetched, and the table it returns has one row for every row of every
    table accumulated so far, by this call or by earlier ones. *)
Theorem accumulation_only_grows calls w :
  league (self (run_calls remote read_csv parse_datetime uuid4_hex cities calls w))
    = league (self w)
  ∧ all_data (self (run_calls remote read_csv parse_datetime uuid4_hex cities calls w))
    = all_data (self w)
      ++ concat (map (λ c, fetched remote read_csv (league (self w)) (years_of c)) calls)
  ∧ ∀ year_start year_end wc w' df,
      collect_data remote read_csv parse_datetime uuid4_hex cities
        year_start year_end wc w = (w', Ok df) →
      all_data (self w') =
        all_data (self w)
        ++ fetched remote read_csv (league (self w)) (range year_start (year_end + 1))
      ∧ length (rows df) = total_rows (all_data (self w')).
Proof.
  split_and!.
  - revert w. induction calls as [|c calls IH]; intros w; simpl; [done|].
    unfold run_calls in *. simpl. rewrite IH.
    apply (collect_data_self c.1.1 c.1.2 c.2 w).
  - revert w. induction calls as [|c calls IH]; intros w; simpl.
    + by rewrite app_nil_r.
    + unfold run_calls in *. simpl. rewrite IH.
      destruct (collect_data_self c.1.1 c.1.2 c.2 w) as [Hl Ha]. cbv zeta in Hl, Ha.
      rewrite Hl, Ha. by rewrite <- app_assoc.
  - intros year_start year_end wc w' df Hcall.
    pose proof (collect_data_self year_start year_end wc w) as [_ Ha].
    cbv zeta in Ha. rewrite Hcall in Ha. simpl in Ha. split; [done|].
    rewrite collect_data_run in Hcall.
    destruct (fetch_years _ _ _ w) as [w1 [[]|e]] eqn:Ef; [|done].
    pose proof (process_data_self wc w1) as Hs. rewrite Hcall in Hs. simpl in Hs.
    apply process_data_rows in Hcall as (base & Hb & Hlen & _).
    rewrite Hlen, Hs. by apply pd_concat_rows.
Qed.

End Calls.

(** ** Two runs against the same archive *)

Lemma derive_row_game_id_only lg date g1 g2 tg cn la lo r c :
  c ≠ "game_id" →
  cell (derive_row lg date g1 tg cn la lo r) c
  = cell (derive_row lg date g2 tg cn la lo r) c.
Proof.
  intros Hc. unfold derive_row, cell. rewrite !lookup_insert.
  repeat case_decide; congruence.
Qed.

Lemma forallb_Forall2 {A} (R : A → A → Prop) (f g : A → bool) l k :
  Forall2 R l k → (∀ x y, R x y → f x = g y) → forallb f l = forallb g k.
Proof.
  intros HF HR. induction HF as [|x y l k Hxy _ IH]; simpl; [done|].
  by rewrite (HR x y Hxy), IH.
Qed.

Section GameId.

Variable lg : string.
Variable base : DataFrame.
Variables dates tg cn la lo : list value.
Variables gid1 gid2 : list value.
Hypothesis Hlen1 : length gid1 = length (rows base).
Hypothesis Hlen2 : length gid2 = length (rows base).
Hypothesis Hna1 : Forall (λ v, isna v = false) gid1.
Hypothesis Hna2 : Forall (λ v, isna v = false) gid2.

Lemma assigned_rows_related :
  Forall2 (λ x y, (∀ c, c ≠ "game_id" → cell x c = cell y c)
                  ∧ isna (cell x "game_id") = false
                  ∧ isna (cell y "game_id") = false)
    (rows (assigned lg base dates gid1 tg cn la lo))
    (rows (assigned lg base dates gid2 tg cn la lo)).
Proof.
  apply Forall2_same_length_lookup. split.
  - unfold assigned; simpl. by rewrite !length_imap.
  - intros i x y. unfold assigned; simpl. rewrite !list_lookup_imap.
    destruct (rows base !! i) as [r|] eqn:Er; simpl; [|done].
    intros [= <-] [= <-].
    assert (i < length (rows base))%nat as Hi by (by eapply lookup_lt_Some).
    destruct (lookup_lt_is_Some_2 gid1 i) as [g1 Hg1]; [lia|].
    destruct (lookup_lt_is_Some_2 gid2 i) as [g2 Hg2]; [lia|].
    split_and!.
    + intros c Hc. by apply derive_row_game_id_only.
    + rewrite derive_row_game_id. unfold at_. rewrite Hg1. simpl.
      exact (Forall_lookup_1 _ gid1 i g1 Hna1 Hg1).
    + rewrite derive_row_game_id. unfold at_. rewrite Hg2. simpl.
      exact (Forall_lookup_1 _ gid2 i g2 Hna2 Hg2).
Qed.

Lemma assigned_all_missing c :
  all_missing (assigned lg base dates gid1 tg cn la lo) c
  = all_missing (assigned lg base dates gid2 tg cn la lo) c.
Proof.
  unfold all_missing. eapply forallb_Forall2; [apply assigned_rows_related|].
  intros x y (Hc & Hx & Hy). simpl.
  destruct (decide (c = "game_id")) as [->|Hne]; [congruence|].
  by rewrite Hc.
Qed.

Lemma dropna_assigned_related :
  same_except_game_id
    (Ok (dropna_all_columns (assigned lg base dates gid1 tg cn la lo)))
    (Ok (dropna_all_columns (assigned lg base dates gid2 tg cn la lo))).
Proof.
  simpl. split.
  - apply list_filter_iff. intros c. by rewrite assigned_all_missing.
  - eapply Forall2_impl; [apply assigned_rows_related|]. by intros x y [? _].
Qed.

End GameId.

Lemma same_except_game_id_select d1 d2 :
  same_except_game_id (Ok d1) (Ok d2) →
  same_except_game_id (select (reorder (columns d1)) d1) (select (reorder (columns d2)) d2).
Proof.
  intros [Hc Hr]. unfold select. rewrite Hc.
  destruct (filter _ (reorder (columns d2))); simpl; done.
Qed.

Section TwoRuns.

Variable remote : string → http_outcome.
Variable read_csv : string → result DataFrame.
Variable parse_datetime : value → option Timestamp.
Variable uuid4_hex : nat → string.
Variable cities : gmap string City.

Lemma enrich_game_id_only lg base gid1 gid2 :
  length gid1 = length (rows base) → length gid2 = length (rows base) →
  Forall (λ v, isna v = false) gid1 → Forall (λ v, isna v = false) gid2 →
  same_except_game_id (enrich parse_datetime cities lg base gid1)
                      (enrich parse_datetime cities lg base gid2).
Proof.
  intros Hl1 Hl2 Hn1 Hn2. unfold enrich.
  destruct (getitem base "FTHG") as [fthg|]; cbn [mbind result_bind]; [|done].
  destruct (getitem base "FTAG") as [ftag|]; cbn [mbind result_bind]; [|done].
  destruct (series_add fthg ftag) as [tg|]; cbn [mbind result_bind]; [|done].
  destruct (getitem base "HomeTeam") as [home|]; cbn [mbind result_bind]; [|done].
  rewrite !derive_eq.
  destruct (getitem base "Date") as [date|]; cbn [mbind result_bind]; [|done].
  destruct (to_datetime parse_datetime date) as [dates|]; cbn [mbind result_bind]; [|done].
  rewrite !decide_True by done.
  by apply dropna_assigned_related.
Qed.

Lemma uuid_list_not_missing k n :
  Forall (λ v, isna v = false)
    (map (λ i, VStr (first8 (uuid4_hex (k + i)%nat))) (seq 0 n)).
Proof. apply Forall_fmap, Forall_forall. done. Qed.

(** The table [_process_data] returns depends on the world through the
    collector only, the identifiers apart. *)
Lemma process_data_same wc w1 w2 :
  self w1 = self w2 →
  same_except_game_id (_process_data parse_datetime uuid4_hex cities wc w1).2
                      (_process_data parse_datetime uuid4_hex cities wc w2).2.
Proof.
  intros Hself. unfold _process_data, mbind, M_bind, lift.
  rewrite !merged_frame_run, Hself.
  destruct (pd_concat (all_data (self w2))) as [base|]; [|done]. cbv zeta.
  pose proof (enrich_game_id_only (league (self w2)) base
    (map (λ i, VStr (first8 (uuid4_hex (uuid_draws w1 + i)%nat))) (seq 0 (length (rows base))))
    (map (λ i, VStr (first8 (uuid4_hex (uuid_draws w2 + i)%nat))) (seq 0 (length (rows base)))))
    as He.
  rewrite !length_map, !length_seq in He.
  specialize (He eq_refl eq_refl (uuid_list_not_missing _ _) (uuid_list_not_missing _ _)).
  destruct (enrich _ _ _ _ (map (λ i, VStr (first8 (uuid4_hex (uuid_draws w1 + i)%nat))) _))
    as [d1|e1];
    destruct (enrich _ _ _ _ (map (λ i, VStr (first8 (uuid4_hex (uuid_draws w2 + i)%nat))) _))
    as [d2|e2]; try done.
  apply same_except_game_id_select in He.
  destruct (select _ d1) as [df1|], (select _ d2) as [df2|]; try done.
  by destruct wc.
Qed.

(** C2 (amended): two [collect_data] calls with the same arguments against
    the same archive, started on collectors that hold the same league and
    the same accumulation (two fresh collectors, say), end alike and
    yield row-for-row identical tables, the column [game_id] apart.  The
    accumulation is state that persists on the collector: after the call
    it is what it was before, followed by the tables fetched. *)
Theorem same_collector_state_same_table year_start year_end wc w1 w2 :
  self w1 = self w2 →
  let run := collect_data remote read_csv parse_datetime uuid4_hex cities
               year_start year_end wc in
  same_except_game_id (run w1).2 (run w2).2
  ∧ self (run w1).1 = self (run w2).1
  ∧ all_data (self (run w1).1) =
      all_data (self w1)
      ++ fetched remote read_csv (league (self w1)) (range year_start (year_end + 1)).
Proof.
  intros Hself. cbv zeta. split_and!.
  - rewrite !collect_data_run.
    destruct (fetch_years_result remote read_csv (range year_start (year_end + 1)) w1 w2 Hself)
      as [Hr Hs].
    destruct (fetch_years _ _ _ w1) as [w1' [[]|e1]],
             (fetch_years _ _ _ w2) as [w2' [[]|e2]]; simpl in *;
      try done; [|congruence].
    by apply process_data_same.
  - rewrite !collect_data_run.
    destruct (fetch_years_result remote read_csv (range year_start (year_end + 1)) w1 w2 Hself)
      as [Hr Hs].
    destruct (fetch_years _ _ _ w1) as [w1' [[]|e1]],
             (fetch_years _ _ _ w2) as [w2' [[]|e2]]; simpl in *; try done.
    by rewrite !process_data_self.
  - apply collect_data_self.
Qed.

End TwoRuns.

(** ** Team statistics *)

Lemma mapR_Forall2 {A B} (f : A → result B) l l' :
  mapR f l = Ok l' → Forall2 (λ a b, f a = Ok b) l l'.
Proof.
  revert l'. induction l as [|a l IH]; intros l'; simpl.
  - intros [= <-]. constructor.
  - destruct (f a) as [b|] eqn:Ea; cbn [mbind result_bind]; [|done].
    destruct (mapR f l) as [bs|]; cbn [mbind result_bind]; [|done].
    intros [= <-]. constructor; [done|]. by apply IH.
Qed.


Lemma team_key_Some v t : team_key v = Some t ↔ v = VStr t.
Proof. destruct v; simpl; split; intros; simplify_eq; done. Qed.

Lemma elem_of_group_keys df by_ t : t ∈ group_keys df by_ ↔ plays df by_ t.
Proof.
  unfold group_keys, plays. rewrite merge_sort_Permutation, elem_of_remove_dups.
  rewrite list_elem_of_omap. apply exist_proper. intros r. by rewrite team_key_Some.
Qed.

Lemma NoDup_group_keys df by_ : NoDup (group_keys df by_).
Proof.
  unfold group_keys. rewrite merge_sort_Permutation. apply NoDup_remove_dups.
Qed.

Lemma group_rows_nil df by_ t : ¬ plays df by_ t → group_rows df by_ t = [].
Proof.
  intros Hn. unfold group_rows.
  destruct (filter _ (rows df)) as [|r l] eqn:E; [done|]. exfalso. apply Hn.
  assert (r ∈ filter (λ r, team_key (cell r by_) = Some t) (rows df)) as Hr.
  { rewrite E. by left. }
  apply list_elem_of_filter in Hr as [Hk Hr]. exists r. by apply team_key_Some in Hk.
Qed.

Lemma count_code_bounds code g : 0 ≤ count_code code g ≤ Z.of_nat (length g).
Proof.
  unfold count_code. pose proof (length_filter (λ r, eq_code code (cell r "FTR") = true) g).
  lia.
Qed.

(** What the aggregation of one group guarantees. *)
Lemma agg_group_spec win goals_col g s :
  agg_group win goals_col g = Ok s →
  Games s = Z.of_nat (length g)
  ∧ 0 ≤ Wins s ≤ Games s ∧ 0 ≤ Draws s ≤ Games s
  ∧ (Games s = 0 → Wins s = 0 ∧ Draws s = 0 ∧ Goals s = 0%Q).
Proof.
  unfold agg_group.
  destruct (sum_cells _) as [q|] eqn:Eq; cbn [mbind result_bind]; [|done].
  intros [= <-]. simpl.
  pose proof (count_code_bounds win g). pose proof (count_code_bounds "D" g).
  split_and!; try lia. intros Hz.
  assert (g = []) as -> by (apply length_zero_iff_nil; lia).
  simpl in Eq. by injection Eq as <-.
Qed.

Lemma sum_cells_total vs :
  Forall (λ v, is_number v = true) vs → ∃ q, sum_cells vs = Ok q.
Proof.
  induction 1 as [|v vs Hv _ [q IH]]; simpl; [eauto|].
  rewrite IH. cbn [mbind result_bind]. destruct v; try done; eauto.
Qed.

Section GroupBy.

Variable df : DataFrame.
Variables by_ win goals_col : string.
Variable hs : list (string * SideStats).
Hypothesis Hgroup : groupby_agg df by_ win goals_col = Ok hs.

Lemma groupby_agg_inv :
  Forall2 (λ t p, ∃ s, agg_group win goals_col (group_rows df by_ t) = Ok s ∧ p = (t, s))
    (group_keys df by_) hs.
Proof.
  unfold groupby_agg in Hgroup. case_decide; [|done].
  destruct (filter _ _); [|done].
  apply mapR_Forall2 in Hgroup. eapply Forall2_impl; [exact Hgroup|].
  intros t p. simpl.
  destruct (agg_group _ _ _) as [s|]; cbn [mbind result_bind]; [|done].
  intros [= <-]. eauto.
Qed.

Lemma groupby_agg_keys : hs.*1 = group_keys df by_.
Proof.
  pose proof groupby_agg_inv as H. clear Hgroup.
  induction H as [|t p ks l (s & _ & ->) _ IH]; [done|]. cbn. by f_equal.
Qed.

(** The row of an indexed frame under a key, or the row of zeros. *)
Lemma side_of_spec t :
  (side_of hs t = zero_side ∧ t ∉ hs.*1)
  ∨ (t ∈ hs.*1 ∧ agg_group win goals_col (group_rows df by_ t) = Ok (side_of hs t)).
Proof.
  pose proof groupby_agg_inv as H. clear Hgroup.
  induction H as [|k p ks l (s & Hs & ->) _ IH]; simpl.
  - left. split; [done|apply not_elem_of_nil].
  - destruct (decide (k = t)) as [->|Hne].
    + right. split; [by left|done].
    + destruct IH as [[-> Hn]|[Hin Ht]].
      * left. split; [done|]. rewrite not_elem_of_cons. done.
      * right. split; [by right|done].
Qed.

Lemma side_of_wf t :
  let s := side_of hs t in
  Games s = Z.of_nat (length (group_rows df by_ t))
  ∧ 0 ≤ Wins s ≤ Games s ∧ 0 ≤ Draws s ≤ Games s
  ∧ (Games s = 0 → Wins s = 0 ∧ Draws s = 0 ∧ Goals s = 0%Q).
Proof.
  cbv zeta. destruct (side_of_spec t) as [[-> Hn]|[_ Hs]].
  - simpl. rewrite group_rows_nil; [done|].
    rewrite <- elem_of_group_keys, <- groupby_agg_keys. done.
  - by apply agg_group_spec in Hs.
Qed.

Lemma side_of_absent t : ¬ plays df by_ t → side_of hs t = zero_side.
Proof.
  intros Hn. destruct (side_of_spec t) as [[-> _]|[Hin _]]; [done|].
  rewrite groupby_agg_keys, elem_of_group_keys in Hin. done.
Qed.

End GroupBy.

(** Division of two counts. *)
Lemma fdiv_counts a b :
  0 ≤ a ≤ b → b ≠ 0 → in_unit_interval (fdiv (inject_Z a) (inject_Z b)).
Proof.
  intros Hab Hb. unfold fdiv.
  assert (0 < inject_Z b)%Q as Hpos.
  { change 0%Q with (inject_Z 0). rewrite <- Zlt_Qlt. lia. }
  destruct (Qeq_bool (inject_Z b) 0) eqn:E.
  - apply Qeq_bool_eq in E. rewrite E in Hpos. by apply Qlt_irrefl in Hpos.
  - simpl. split.
    + apply Qle_shift_div_l; [done|]. rewrite Qmult_0_l.
      change 0%Q with (inject_Z 0). rewrite <- Zle_Qle. lia.
    + apply Qle_shift_div_r; [done|]. rewrite Qmult_1_l. rewrite <- Zle_Qle. lia.
Qed.

Lemma fdiv_nonzero x b : b ≠ 0 → fdiv x (inject_Z b) = Finite (x / inject_Z b).
Proof.
  intros Hb. unfold fdiv. destruct (Qeq_bool (inject_Z b) 0) eqn:E; [|done].
  apply Qeq_bool_eq in E. exfalso. apply Hb, inject_Z_injective. exact E.
Qed.

Lemma fdiv_zero_zero : fdiv 0 (inject_Z 0) = NaN.
Proof. reflexivity. Qed.

Lemma elem_of_outer_index hs as_ t :
  t ∈ outer_index hs as_ ↔ t ∈ (hs.*1) ∨ t ∈ (as_.*1).
Proof.
  unfold outer_index. by rewrite merge_sort_Permutation, elem_of_remove_dups, elem_of_app.
Qed.

Lemma NoDup_outer_index hs as_ : NoDup (outer_index hs as_).
Proof. unfold outer_index. rewrite merge_sort_Permutation. apply NoDup_remove_dups. Qed.

(** What a successful [compute_team_statistics] returns: one row per key
    of the merged index, built from the two sides. *)
Lemma compute_team_statistics_inv df stats :
  compute_team_statistics df = Ok stats →
  ∃ hs as_,
    groupby_agg df "HomeTeam" "H" "FTHG" = Ok hs
    ∧ groupby_agg df "AwayTeam" "A" "FTAG" = Ok as_
    ∧ stats = map (λ t, team_row t (side_of hs t) (side_of as_ t)) (outer_index hs as_).
Proof.
  unfold compute_team_statistics.
  destruct (groupby_agg df "HomeTeam" "H" "FTHG") as [hs|]; cbn [mbind result_bind]; [|done].
  destruct (groupby_agg df "AwayTeam" "A" "FTAG") as [as_|]; cbn [mbind result_bind]; [|done].
  intros [= <-]. eauto.
Qed.


(** C3 (amended): in the team statistics, the four win and draw ratios
    (WinRatio, DrawRatio, HomeWinRatio, AwayWinRatio) lie in [0, 1] whenever
    their denominator is not zero, for every input table.  The three goal
    ratios are goals per game: with a nonzero denominator they are the
    finite quotient of the goal sum by the number of games, which is not
    bounded by 1. *)
Theorem win_and_draw_ratios_in_unit_interval df stats s :
  compute_team_statistics df = Ok stats → s ∈ stats →
  (TotalGames s ≠ 0 →
     in_unit_interval (WinRatio s) ∧ in_unit_interval (DrawRatio s)
     ∧ TotalGoalRatio s = Finite (TotalGoals s / inject_Z (TotalGames s)))
  ∧ (HomeGames s ≠ 0 →
     in_unit_interval (HomeWinRatio s)
     ∧ HomeGoalRatio s = Finite (HomeGoals s / inject_Z (HomeGames s)))
  ∧ (AwayGames s ≠ 0 →
     in_unit_interval (AwayWinRatio s)
     ∧ AwayGoalRatio s = Finite (AwayGoals s / inject_Z (AwayGames s))).
Proof.
  intros (hs & as_ & Hh & Ha & ->)%compute_team_statistics_inv
    (t & -> & _)%list_elem_of_fmap.
  pose proof (side_of_wf _ _ _ _ _ Hh t) as (_ & Hhw & Hhd & _).
  pose proof (side_of_wf _ _ _ _ _ Ha t) as (_ & Haw & Had & _).
  simpl. split_and!; intros Hnz; split_and?.
  - apply fdiv_counts; lia.
  - apply fdiv_counts; lia.
  - by apply fdiv_nonzero.
  - apply fdiv_counts; lia.
  - by apply fdiv_nonzero.
  - apply fdiv_counts; lia.
  - by apply fdiv_nonzero.
Qed.


(** C7: the team statistics hold exactly one row per distinct team name
    that appears as a home or as an away team; the games of a side are the
    rows in which the team plays on that side, so that a team that appears
    on one side only has the counts of the other side equal to zero; and
    for every team each total is the sum of the home and the away figure. *)
Theorem one_row_per_team_with_totals df stats :
  compute_team_statistics df = Ok stats →
  NoDup (map Team stats)
  ∧ (∀ t, t ∈ map Team stats ↔ plays df "HomeTeam" t ∨ plays df "AwayTeam" t)
  ∧ ∀ s, s ∈ stats →
      HomeGames s = Z.of_nat (length (group_rows df "HomeTeam" (Team s)))
      ∧ AwayGames s = Z.of_nat (length (group_rows df "AwayTeam" (Team s)))
      ∧ (¬ plays df "HomeTeam" (Team s) →
           HomeGames s = 0 ∧ HomeWins s = 0 ∧ HomeDraws s = 0 ∧ HomeGoals s = 0%Q)
      ∧ (¬ plays df "AwayTeam" (Team s) →
           AwayGames s = 0 ∧ AwayWins s = 0 ∧ AwayDraws s = 0 ∧ AwayGoals s = 0%Q)
      ∧ TotalGames s = HomeGames s + AwayGames s
      ∧ TotalWins s = HomeWins s + AwayWins s
      ∧ TotalDraws s = HomeDraws s + AwayDraws s
      ∧ TotalGoals s = (HomeGoals s + AwayGoals s)%Q.
Proof.
  intros (hs & as_ & Hh & Ha & ->)%compute_team_statistics_inv.
  assert (map Team (map (λ t, team_row t (side_of hs t) (side_of as_ t))
                        (outer_index hs as_)) = outer_index hs as_) as Hteams.
  { induction (outer_index hs as_) as [|t l IH]; simpl; [done|by f_equal]. }
  rewrite Hteams. split_and!.
  - apply NoDup_outer_index.
  - intros t. rewrite elem_of_outer_index.
    rewrite (groupby_agg_keys _ _ _ _ _ Hh), (groupby_agg_keys _ _ _ _ _ Ha).
    by rewrite !elem_of_group_keys.
  - intros s (t & -> & _)%list_elem_of_fmap. simpl.
    pose proof (side_of_wf _ _ _ _ _ Hh t) as (Hhg & _).
    pose proof (side_of_wf _ _ _ _ _ Ha t) as (Hag & _).
    split_and!; try done.
    + intros Hn. by rewrite (side_of_absent _ _ _ _ _ Hh t Hn).
    + intros Hn. by rewrite (side_of_absent _ _ _ _ _ Ha t Hn).
Qed.

(** ** The model on the concrete archive *)

(** Closes an equation between closed terms by evaluating both sides. *)
Ltac by_evaluation :=
  lazymatch goal with
  | |- @eq ?A ?x ?y => vm_cast_no_check (@eq_refl A y)
  end.

(** C1, as stated, fails on a collector that was used before: the season
    2020/2021 is not in the archive (status 404) and the range 2021..2020 is
    reversed, yet both calls return a table, made of the season fetched by
    the earlier call. *)
Lemma reused_collector_returns_a_table :
  all_data (self Demo.reused) = [Demo.season_2021]
  ∧ fetch_fails Demo.remote "epl" 2020
  ∧ is_ok (Demo.collect 2020 2020 Demo.reused).2 = true
  ∧ range 2021 (2020 + 1) = []
  ∧ is_ok (Demo.collect 2021 2020 Demo.reused).2 = true.
Proof.
  split_and!; try by_evaluation.
  vm_compute. discriminate.
Qed.

Lemma empty_accumulation_raises_witness :
  Demo.process false (Demo.fresh "epl")
    = (Demo.fresh "epl", Raise (ValueError "No objects to concatenate"))
  ∧ ∃ msg, (Demo.collect 2020 2020 (Demo.fresh "epl")).2 = Raise (ValueError msg).
Proof.
  apply (empty_accumulation_raises Demo.remote Demo.read_csv Demo.parse_datetime
           Demo.uuid4_hex Demo.cities 2020 2020 false (Demo.fresh "epl")).
  - reflexivity.
  - intros y Hy. replace y with 2020 by lia. vm_compute. discriminate.
Defined.

(** C2, as stated, fails: the second of two identical calls on the same
    collector returns the rows of the first call once more. *)
Lemma second_call_repeats_rows :
  ¬ same_except_game_id (Demo.collect 2021 2021 (Demo.fresh "epl")).2
                        (Demo.collect 2021 2021 Demo.reused).2.
Proof.
  set (r1 := (Demo.collect 2021 2021 (Demo.fresh "epl")).2).
  set (r2 := (Demo.collect 2021 2021 Demo.reused).2).
  assert (is_ok r1 = true) as O1 by by_evaluation.
  assert (is_ok r2 = true) as O2 by by_evaluation.
  assert (length (rows (Demo.frame_of r1)) = 2%nat) as H1 by by_evaluation.
  assert (length (rows (Demo.frame_of r2)) = 4%nat) as H2 by by_evaluation.
  clearbody r1 r2. destruct r1 as [d1|], r2 as [d2|]; try discriminate.
  simpl in H1, H2. intros [_ HF%Forall2_length]. lia.
Qed.

Lemma same_collector_state_same_table_witness :
  same_except_game_id (Demo.collect 2021 2021 (Demo.fresh "epl")).2
                      (Demo.collect 2021 2021 (Demo.fresh_later "epl")).2.
Proof.
  apply (same_collector_state_same_table Demo.remote Demo.read_csv Demo.parse_datetime
           Demo.uuid4_hex Demo.cities 2021 2021 false
           (Demo.fresh "epl") (Demo.fresh_later "epl")).
  reflexivity.
Defined.

(** C3, as stated, fails for the goal ratios: Brentford scored two goals
    in its one home game. *)
Lemma goal_ratio_exceeds_one :
  compute_team_statistics Demo.season_2021 = Ok Demo.stats
  ∧ ∃ s, Demo.stats !! 1%nat = Some s
         ∧ Team s = "Brentford" ∧ HomeGames s = 1
         ∧ HomeGoalRatio s = Finite 2
         ∧ ¬ in_unit_interval (HomeGoalRatio s).
Proof.
  split; [by_evaluation|]. eexists. split; [reflexivity|].
  split_and!; try reflexivity.
  simpl. intros [_ H]. by apply H.
Qed.

Lemma win_and_draw_ratios_in_unit_interval_witness :
  ∃ s, Demo.stats !! 1%nat = Some s
       ∧ (HomeGames s ≠ 0 →
          in_unit_interval (HomeWinRatio s)
          ∧ HomeGoalRatio s = Finite (HomeGoals s / inject_Z (HomeGames s))).
Proof.
  eexists. split; [reflexivity|].
  eapply (win_and_draw_ratios_in_unit_interval Demo.season_2021 Demo.stats).
  - by_evaluation.
  - apply (list_elem_of_lookup_2 _ 1%nat). reflexivity.
Defined.


Lemma column_order_of_merged_table_witness :
  columns Demo.table !! 0%nat = Some "game_id" ∧ columns Demo.table !! 4%nat = Some "TG".
Proof.
  assert (Demo.process false Demo.loaded
          = ((Demo.process false Demo.loaded).1, Ok Demo.table)) as Hrun by by_evaluation.
  pose proof (column_order_of_merged_table Demo.parse_datetime Demo.uuid4_hex Demo.cities
                false Demo.loaded _ Demo.table Hrun) as (post & _ & H).
  cbv zeta in H. destruct H as (_ & _ & _ & H0 & H4). exact (conj H0 H4).
Defined.

Lemma season_follows_month_rule_witness :
  cell (Demo.row_at 0) "season" = VStr (season_from 2021).
Proof.
  apply (season_follows_month_rule Demo.parse_datetime Demo.uuid4_hex Demo.cities
           false Demo.loaded (Demo.process false Demo.loaded).1 Demo.table 0
           (Demo.row_at 0) {| year := 2021; month := 8; day := 13 |}).
  - by_evaluation.
  - by_evaluation.
  - by_evaluation.
  - simpl. lia.
Defined.

Lemma one_row_per_team_with_totals_witness : NoDup (map Team Demo.stats).
Proof.
  apply (one_row_per_team_with_totals Demo.season_2021 Demo.stats).
  by_evaluation.
Defined.

Lemma invalid_league_raises_at_first_url_witness :
  Demo.collect 2020 2021 (Demo.fresh "liga")
  = (Demo.fresh "liga", Raise (ValueError "Invalid league. Must be 'serie_a' or 'epl'.")).
Proof.
  apply (invalid_league_raises_at_first_url Demo.remote Demo.read_csv Demo.parse_datetime
           Demo.uuid4_hex Demo.cities 2020 2021 false (Demo.fresh "liga")).
  - simpl. discriminate.
  - simpl. discriminate.
  - lia.
Defined.

Lemma city_fields_follow_reference_witness :
  cell (Demo.row_at 1) "city_name" = VStr "London"
  ∧ (cell (Demo.row_at 0) "city_name" = NA
     ∧ cell (Demo.row_at 0) "lat" = NA ∧ cell (Demo.row_at 0) "lon" = NA).
Proof.
  split.
  - apply (proj1 (city_fields_follow_reference Demo.parse_datetime Demo.uuid4_hex Demo.cities
             false Demo.loaded (Demo.process false Demo.loaded).1 Demo.table 1
             (Demo.row_at 1) ltac:(by_evaluation) ltac:(by_evaluation))
             "Arsenal" {| name := "London"; lat := 51.555; lon := -0.1086 |}
             ltac:(by_evaluation) ltac:(by_evaluation)).
  - apply (proj2 (city_fields_follow_reference Demo.parse_datetime Demo.uuid4_hex Demo.cities
             false Demo.loaded (Demo.process false Demo.loaded).1 Demo.table 0
             (Demo.row_at 0) ltac:(by_evaluation) ltac:(by_evaluation))).
    intros s Hs.
    assert (cell (Demo.row_at 0) "HomeTeam" = VStr "Brentford") as Hb by by_evaluation.
    rewrite Hb in Hs. injection Hs as <-. by_evaluation.
Defined.

Lemma accumulation_only_grows_witness :
  all_data (self (Demo.run [(2021, 2021, false); (2020, 2020, false); (2021, 2021, true)]
                    (Demo.fresh "epl")))
  = [Demo.season_2021; Demo.season_2021].
Proof.
  unfold Demo.run.
  rewrite (proj1 (proj2 (accumulation_only_grows Demo.remote Demo.read_csv
             Demo.parse_datetime Demo.uuid4_hex Demo.cities
             [(2021, 2021, false); (2020, 2020, false); (2021, 2021, true)]
             (Demo.fresh "epl")))).
  by_evaluation.
Defined.

(** ** Evaluation checks *)

Example construct_url_serie_a_2009 :
  _construct_url (__init__ "serie_a") 2009
  = Ok "https://www.football-data.co.uk/mmz4281/0910/I1.csv".
Proof. reflexivity. Qed.

Example construct_url_epl_1999 :
  _construct_url (__init__ "epl") 1999
  = Ok "https://www.football-data.co.uk/mmz4281/9900/E0.csv".
Proof. reflexivity. Qed.

Example season_label_of_missing_date : season_label NA = VStr "nan/nan".
Proof. reflexivity. Qed.

Example columns_of_demo_table :
  columns Demo.table
  = ["game_id"; "Div"; "Date"; "HomeTeam"; "TG"; "AwayTeam"; "FTHG"; "FTAG"; "FTR";
     "season"; "city_name"; "lat"; "lon"].
Proof. by_evaluation. Qed.

(** * Further properties *)

(** ** The URL of a season *)

Lemma pretty_N_char_digit x : (x < 10)%N → pretty_N_char x = digit_char (Z.of_N x).
Proof.
  intros Hx.
  assert (x = 0 ∨ x = 1 ∨ x = 2 ∨ x = 3 ∨ x = 4 ∨ x = 5 ∨ x = 6 ∨ x = 7 ∨ x = 8 ∨ x = 9)%N
    as Hc by lia.
  repeat (destruct Hc as [->|Hc]; [reflexivity|]). by subst.
Qed.

Lemma string_app_cons a s1 s2 : (String a s1 +:+ s2 = String a (s1 +:+ s2))%string.
Proof. reflexivity. Qed.

Lemma string_app_assoc s1 s2 s3 : ((s1 +:+ s2) +:+ s3 = s1 +:+ (s2 +:+ s3))%string.
Proof.
  induction s1 as [|a s1 IH]; [reflexivity|].
  by rewrite !string_app_cons, IH.
Qed.

Lemma string_length_app s1 s2 :
  String.length (s1 +:+ s2) = (String.length s1 + String.length s2)%nat.
Proof.
  induction s1 as [|a s1 IH]; [reflexivity|].
  rewrite string_app_cons. simpl. by rewrite IH.
Qed.

(** The digits are produced in front of the accumulator. *)
Lemma pretty_N_go_app x s : pretty_N_go x s = (pretty_N_go x "" +:+ s)%string.
Proof.
  revert s. induction (N.lt_wf_0 x) as [x _ IH]; intros s.
  destruct (decide (x = 0)%N) as [->|Hx]; [done|].
  rewrite (pretty_N_go_step x s), (pretty_N_go_step x "") by lia.
  assert (x `div` 10 < x)%N as Hlt by (apply N.div_lt; lia).
  rewrite (IH _ Hlt (String (pretty_N_char (x `mod` 10)) s)).
  rewrite (IH _ Hlt (String (pretty_N_char (x `mod` 10)) "")).
  rewrite string_app_assoc. done.
Qed.

Lemma pretty_N_last_two x :
  (10 ≤ x)%N →
  pretty x = (pretty_N_go (x `div` 100)%N ""
              +:+ two_digits (Z.of_N x))%string.
Proof.
  intros Hx. unfold pretty, pretty_N. rewrite decide_False by lia.
  rewrite pretty_N_go_step by lia.
  assert (0 < x `div` 10)%N as Hd.
  { apply N.div_str_pos. lia. }
  rewrite pretty_N_go_step by done.
  rewrite pretty_N_go_app. f_equal.
  - f_equal. rewrite N.Div0.div_div. done.
  - unfold two_digits.
    rewrite !pretty_N_char_digit by (apply N.mod_lt; lia).
    rewrite !N2Z.inj_mod, N2Z.inj_div. done.
Qed.

Lemma substring_skip p n s :
  substring (String.length p) n (p +:+ s) = substring 0 n s.
Proof.
  induction p as [|a p IH]; [reflexivity|].
  rewrite string_app_cons. simpl. exact IH.
Qed.

Lemma last2_app p a b :
  last2 (p +:+ String a (String b "")) = String a (String b "").
Proof.
  unfold last2. rewrite string_length_app. simpl.
  replace (String.length p + 2 - 2)%nat with (String.length p) by lia.
  by rewrite substring_skip.
Qed.

Lemma last2_str n : 10 ≤ n → last2 (str n) = two_digits n.
Proof.
  intros Hn. unfold str. destruct n as [|p|p]; try lia.
  change (pretty (Z.pos p)) with (pretty (N.pos p)).
  rewrite pretty_N_last_two by lia. unfold two_digits at 1. by rewrite last2_app.
Qed.

(** X1: for a supported league and a year of at least two digits, the URL
    is the archive prefix, the last two decimal digits of the year, the last
    two decimal digits of the next year, and the file of the league. *)
Theorem construct_url_two_digit_years c year :
  league c = "serie_a" ∨ league c = "epl" → 10 ≤ year →
  _construct_url c year
  = Ok ("https://www.football-data.co.uk/mmz4281/"
          +:+ two_digits year +:+ two_digits (year + 1) +:+ league_file (league c))%string.
Proof.
  intros Hl Hy. unfold _construct_url, league_file.
  rewrite !last2_str by lia.
  destruct Hl as [-> | ->]; reflexivity.
Qed.

Lemma construct_url_two_digit_years_witness :
  _construct_url (__init__ "epl") 1999
  = Ok ("https://www.football-data.co.uk/mmz4281/"
          +:+ two_digits 1999 +:+ two_digits (1999 + 1) +:+ league_file "epl")%string.
Proof.
  apply (construct_url_two_digit_years (__init__ "epl") 1999).
  - right. reflexivity.
  - lia.
Defined.

(** ** What a call does to the outside world *)

Lemma requests_app t1 t2 : requests (t1 ++ t2) = requests t1 ++ requests t2.
Proof. unfold requests. apply omap_app. Qed.

Lemma files_written_app t1 t2 :
  files_written (t1 ++ t2) = files_written t1 ++ files_written t2.
Proof. unfold files_written. apply omap_app. Qed.

Lemma range_split start mid stop :
  start ≤ mid ≤ stop → range start stop = range start mid ++ range mid stop.
Proof.
  intros H. unfold range.
  replace (stop - start) with ((mid - start) + (stop - mid)) by lia.
  rewrite seqZ_app by lia. do 2 f_equal; lia.
Qed.

Section Outside.

Variable remote : string → http_outcome.
Variable read_csv : string → result DataFrame.
Variable parse_datetime : value → option Timestamp.
Variable uuid4_hex : nat → string.
Variable cities : gmap string City.

Lemma construct_url_supported c year :
  league c = "serie_a" ∨ league c = "epl" →
  _construct_url c year = Ok (url_of (league c) year).
Proof.
  intros Hl. unfold url_of. rewrite <- construct_url_league.
  unfold _construct_url. destruct Hl as [-> | ->]; reflexivity.
Qed.

(** One iteration sends one request, writes no file, and ends as
    [season_table] says. *)
Lemma fetch_year_outside year w :
  league (self w) = "serie_a" ∨ league (self w) = "epl" →
  let out := fetch_year remote read_csv year w in
  requests (trace out.1) = requests (trace w) ++ [url_of (league (self w)) year]
  ∧ files_written (trace out.1) = files_written (trace w)
  ∧ out.2 = (_ ← season_table remote read_csv (league (self w)) year; Ok ()).
Proof.
  intros Hl. cbv zeta.
  unfold fetch_year, season_table, requests_get, print, emit, get_self, lift,
    append_all_data, mbind, M_bind, mret, M_ret; simpl.
  rewrite <- construct_url_league, (construct_url_supported _ _ Hl). simpl.
  destruct (remote _) as [status_code text|msg]; simpl.
  - destruct (decide (status_code = 200)) as [H200|H200]; simpl.
    + destruct (read_csv text) as [df|e]; simpl;
        rewrite requests_app, files_written_app; simpl; by rewrite ?app_nil_r.
    + rewrite !requests_app, !files_written_app. simpl. by rewrite !app_nil_r.
  - rewrite !requests_app, !files_written_app. simpl. by rewrite !app_nil_r.
Qed.

Lemma fetch_years_app pre post w :
  fetch_years remote read_csv (pre ++ post) w =
    match fetch_years remote read_csv pre w with
    | (w1, Ok _) => fetch_years remote read_csv post w1
    | (w1, Raise e) => (w1, Raise e)
    end.
Proof.
  revert w. induction pre as [|y pre IH]; intros w; simpl; [done|].
  unfold mbind, M_bind.
  destruct (fetch_year remote read_csv y w) as [w1 [[]|e]]; [apply IH|done].
Qed.

(** While the bodies read, the loop sends one request per year, in order. *)
Lemma fetch_years_outside years w :
  league (self w) = "serie_a" ∨ league (self w) = "epl" →
  Forall (λ y, is_ok (season_table remote read_csv (league (self w)) y) = true) years →
  let out := fetch_years remote read_csv years w in
  out.2 = Ok ()
  ∧ requests (trace out.1) = requests (trace w) ++ map (url_of (league (self w))) years
  ∧ files_written (trace out.1) = files_written (trace w).
Proof.
  intros Hl Hok. revert w Hl Hok.
  induction years as [|y years IH]; intros w Hl Hok; simpl.
  - by rewrite app_nil_r.
  - apply Forall_cons in Hok as [Hy Hok].
    pose proof (fetch_year_outside y w Hl) as (Hr & Hf & Hres). cbv zeta in Hr, Hf, Hres.
    pose proof (fetch_year_spec remote read_csv y w) as (Hlg & _). cbv zeta in Hlg.
    unfold mbind, M_bind.
    destruct (fetch_year remote read_csv y w) as [w1 [[]|e]]; simpl in *.
    + destruct (IH w1) as (H1 & H2 & H3); [by rewrite Hlg..|].
      rewrite H1, H2, H3, Hr, Hf, Hlg. by rewrite <- app_assoc.
    + destruct (season_table _ _ _ y); simpl in *; done.
Qed.

Lemma process_data_outside wc w :
  let out := _process_data parse_datetime uuid4_hex cities wc w in
  requests (trace out.1) = requests (trace w)
  ∧ files_written (trace out.1)
    = files_written (trace w) ++ csv_of (league (self w)) wc out.2.
Proof.
  cbv zeta. unfold _process_data, mbind, M_bind, lift. rewrite merged_frame_run.
  destruct (pd_concat (all_data (self w))) as [base|]; simpl; [|by rewrite app_nil_r].
  destruct (enrich _ _ _ _ _) as [d|]; simpl; [|by rewrite app_nil_r].
  destruct (select _ d) as [df|]; simpl; [|by rewrite app_nil_r].
  destruct wc; simpl.
  - rewrite !requests_app, !files_written_app. simpl. by rewrite !app_nil_r.
  - by rewrite app_nil_r.
Qed.

Lemma fetch_years_files years w :
  files_written (trace (fetch_years remote read_csv years w).1) = files_written (trace w).
Proof.
  revert w. induction years as [|y years IH]; intros w; simpl; [done|].
  assert (files_written (trace (fetch_year remote read_csv y w).1)
          = files_written (trace w)) as Hy.
  { unfold fetch_year, requests_get, print, emit, get_self, lift,
      append_all_data, mbind, M_bind, mret, M_ret; simpl.
    destruct (_construct_url (self w) y) as [url|e]; simpl; [|done].
    destruct (remote url) as [status_code text|msg]; simpl.
    - destruct (decide (status_code = 200)) as [H200|H200]; simpl.
      + destruct (read_csv text) as [df|e]; simpl;
          rewrite files_written_app; simpl; by rewrite app_nil_r.
      + rewrite !files_written_app. simpl. by rewrite !app_nil_r.
    - rewrite !files_written_app. simpl. by rewrite !app_nil_r. }
  unfold mbind, M_bind.
  destruct (fetch_year remote read_csv y w) as [w1 [[]|e]]; simpl in *; [|done].
  by rewrite IH.
Qed.

(** X2: for a supported league, as long as every body that arrives reads as
    a table, [collect_data] sends exactly one request per year of the range,
    in increasing order of the years, whatever the status of the answers
    and whichever requests fail; it sends none when the range is reversed. *)
Theorem one_request_per_year_in_order year_start year_end wc w :
  league (self w) = "serie_a" ∨ league (self w) = "epl" →
  (∀ y, year_start ≤ y ≤ year_end →
        is_ok (season_table remote read_csv (league (self w)) y) = true) →
  requests (trace (collect_data remote read_csv parse_datetime uuid4_hex cities
                     year_start year_end wc w).1)
  = requests (trace w) ++ map (url_of (league (self w))) (range year_start (year_end + 1)).
Proof.
  intros Hl Hok. rewrite collect_data_run.
  destruct (fetch_years_outside (range year_start (year_end + 1)) w Hl) as (H1 & H2 & _).
  { apply Forall_forall. intros y Hy%elem_of_range. apply Hok. lia. }
  destruct (fetch_years _ _ _ w) as [w1 [[]|e]]; simpl in *; [|done].
  pose proof (process_data_outside wc w1) as [Hp _]. cbv zeta in Hp. by rewrite Hp.
Qed.

(** X3: a body that does not read as a table is not tolerated like a failed
    request: the error of the reader leaves [collect_data].  The tables of
    the years before stay accumulated on the collector, the years after are
    never requested, and no file is written. *)
Theorem unreadable_body_aborts_the_call year_start year_end wc w y e :
  league (self w) = "serie_a" ∨ league (self w) = "epl" →
  year_start ≤ y ≤ year_end →
  (∀ y', year_start ≤ y' < y →
         is_ok (season_table remote read_csv (league (self w)) y') = true) →
  season_table remote read_csv (league (self w)) y = Raise e →
  let out := collect_data remote read_csv parse_datetime uuid4_hex cities
               year_start year_end wc w in
  out.2 = Raise e
  ∧ all_data (self out.1)
    = all_data (self w) ++ fetched remote read_csv (league (self w)) (range year_start y)
  ∧ requests (trace out.1)
    = requests (trace w) ++ map (url_of (league (self w))) (range year_start (y + 1))
  ∧ files_written (trace out.1) = files_written (trace w).
Proof.
  intros Hl Hy Hok He. cbv zeta. rewrite collect_data_run.
  rewrite (range_split year_start y (year_end + 1)) by lia.
  rewrite (range_cons y) by lia. rewrite fetch_years_app.
  destruct (fetch_years_outside (range year_start y) w Hl) as (H1 & H2 & H3).
  { apply Forall_forall. intros y' Hy'%elem_of_range. apply Hok. lia. }
  pose proof (fetch_years_self remote read_csv (range year_start y) w) as (Hlg & _ & Ha).
  cbv zeta in Hlg, Ha.
  destruct (fetch_years _ _ (range year_start y) w) as [w1 [[]|e1]]; simpl in *; [|done].
  pose proof (fetch_year_spec remote read_csv y w1) as (_ & _ & Hspec). cbv zeta in Hspec.
  assert (league (self w1) = "serie_a" ∨ league (self w1) = "epl") as Hl1 by (by rewrite Hlg).
  pose proof (fetch_year_outside y w1 Hl1) as (Hr & Hf & _). cbv zeta in Hr, Hf.
  rewrite Hlg, He in Hspec. destruct Hspec as [Hd Hres].
  unfold mbind, M_bind.
  destruct (fetch_year remote read_csv y w1) as [w2 [[]|e2]]; simpl in *; [done|].
  injection Hres as ->. split_and!; try done.
  - by rewrite Hd, Ha.
  - rewrite Hr, H2, Hlg. rewrite (range_split year_start y (y + 1)) by lia.
    rewrite (range_cons y (y + 1)), (range_empty (y + 1)) by lia.
    by rewrite map_app, <- app_assoc.
  - by rewrite Hf.
Qed.

(** X4: [collect_data] writes a file exactly when it is asked to and
    returns a table: the file is then named after the league and holds the
    returned table.  A call that raises, or whose flag is off, writes
    nothing. *)
Theorem file_written_iff_asked_and_returned year_start year_end wc w :
  let out := collect_data remote read_csv parse_datetime uuid4_hex cities
               year_start year_end wc w in
  files_written (trace out.1)
  = files_written (trace w) ++ csv_of (league (self w)) wc out.2.
Proof.
  cbv zeta. rewrite collect_data_run.
  pose proof (fetch_years_files (range year_start (year_end + 1)) w) as Hf.
  pose proof (fetch_years_self remote read_csv (range year_start (year_end + 1)) w)
    as (Hlg & _). cbv zeta in Hlg.
  destruct (fetch_years _ _ _ w) as [w1 [[]|e]]; simpl in *.
  - pose proof (process_data_outside wc w1) as [_ Hp]. cbv zeta in Hp.
    by rewrite Hp, Hf, Hlg.
  - by rewrite Hf, app_nil_r.
Qed.

End Outside.

Lemma one_request_per_year_in_order_witness :
  requests (trace (Demo.collect 2020 2022 (Demo.fresh "epl")).1)
  = [url_of "epl" 2020; url_of "epl" 2021; url_of "epl" 2022].
Proof.
  unfold Demo.collect.
  rewrite (one_request_per_year_in_order Demo.remote Demo.read_csv Demo.parse_datetime
             Demo.uuid4_hex Demo.cities 2020 2022 false (Demo.fresh "epl")).
  - reflexivity.
  - right. reflexivity.
  - intros y Hy. assert (y = 2020 ∨ y = 2021 ∨ y = 2022) as [->|[->| ->]] by lia;
      reflexivity.
Defined.

Lemma unreadable_body_aborts_the_call_witness :
  (Damaged.collect 2021 2023 true (Demo.fresh "epl")).2
    = Raise (ReadError "No columns to parse from file")
  ∧ all_data (self (Damaged.collect 2021 2023 true (Demo.fresh "epl")).1)
    = [] ++ fetched Damaged.remote Demo.read_csv "epl" (range 2021 2022)
  ∧ requests (trace (Damaged.collect 2021 2023 true (Demo.fresh "epl")).1)
    = [] ++ map (url_of "epl") (range 2021 (2022 + 1))
  ∧ files_written (trace (Damaged.collect 2021 2023 true (Demo.fresh "epl")).1) = [].
Proof.
  apply (unreadable_body_aborts_the_call Damaged.remote Demo.read_csv Demo.parse_datetime
           Demo.uuid4_hex Demo.cities 2021 2023 true (Demo.fresh "epl") 2022).
  - right. reflexivity.
  - lia.
  - intros y Hy. replace y with 2021 by lia. reflexivity.
  - reflexivity.
Defined.

(** ** The rows of the merged table *)

Lemma first8_length s : (8 ≤ String.length s)%nat → String.length (first8 s) = 8%nat.
Proof.
  unfold first8. generalize 8%nat. intros n. revert s.
  induction n as [|n IH]; intros s Hs.
  - by destruct s.
  - destruct s as [|a s]; simpl in *; [lia|]. rewrite IH; [done|lia].
Qed.




Section Rows.

Variable parse_datetime : value → option Timestamp.
Variable uuid4_hex : nat → string.
Variable cities : gmap string City.

(** Row [i] of a returned table is row [i] of the concatenation, enriched;
    its identifier is the [i]-th one drawn by the call. *)
Lemma process_data_row_at wc w w' df i r' :
  _process_data parse_datetime uuid4_hex cities wc w = (w', Ok df) →
  rows df !! i = Some r' →
  ∃ base r date tg,
    pd_concat (all_data (self w)) = Ok base
    ∧ rows base !! i = Some r
    ∧ to_datetime_cell parse_datetime (cell r "Date") = Ok date
    ∧ add_value (cell r "FTHG") (cell r "FTAG") = Ok tg
    ∧ r' = derive_row (league (self w)) date
             (VStr (first8 (uuid4_hex (uuid_draws w + i)%nat))) tg
             (city_lookup cities (λ c, VStr (name c)) (cell r "HomeTeam"))
             (city_lookup cities (λ c, VFloat (lat c)) (cell r "HomeTeam"))
             (city_lookup cities (λ c, VFloat (lon c)) (cell r "HomeTeam")) r.
Proof.
  intros (base & dates & tg & gid & Hc & Hd & Ht & -> & _ & _ & Hpost)%process_data_inv.
  cbv zeta in Hpost. destruct Hpost as (_ & _ & Hrows & _).
  rewrite Hrows. simpl. rewrite list_lookup_imap.
  destruct (rows base !! i) as [r|] eqn:Er; simpl; [|done]. intros [= <-].
  destruct (mapR_lookup _ _ _ i (cell r "Date") Hd) as (date & Hdi & Hdc).
  { by rewrite list_lookup_fmap, Er. }
  destruct (series_add_lookup _ _ _ i (cell r "FTHG") (cell r "FTAG") Ht)
    as (v & Hvi & Hv); [by rewrite list_lookup_fmap, Er..|].
  exists base, r, date, v. split_and!; [done..|].
  unfold at_, city_series. rewrite Hdi, Hvi, !list_lookup_fmap, Er. simpl.
  rewrite lookup_seq_lt by (by eapply lookup_lt_Some).
  done.
Qed.



Lemma process_data_scored_row wc w w' df :
  _process_data parse_datetime uuid4_hex cities wc w = (w', Ok df) →
  ∃ r, r ∈ rows df ∧ isna (cell r "TG") = false.
Proof.
  intros (base & dates & tg & gid & _ & _ & _ & _ & _ & _ & Hpost)%process_data_inv.
  cbv zeta in Hpost. destruct Hpost as (_ & _ & Hrows & _ & HT).
  apply elem_of_dropna in HT as (_ & r & Hr & Hna).
  exists r. by rewrite Hrows.
Qed.

(** X6: [Div] is a column of every returned table and holds the league of
    the collector in every row, whatever division code the season tables
    carried. *)
Theorem div_is_the_league wc w w' df :
  _process_data parse_datetime uuid4_hex cities wc w = (w', Ok df) →
  "Div" ∈ columns df
  ∧ ∀ r, r ∈ rows df → cell r "Div" = VStr (league (self w)).
Proof.
  intros Hp.
  assert (∀ r, r ∈ rows df → cell r "Div" = VStr (league (self w))) as Hdiv.
  { intros r [i Hi]%list_elem_of_lookup_1.
    destruct (process_data_row_at _ _ _ _ _ _ Hp Hi) as (? & ? & ? & ? & _ & _ & _ & _ & ->).
    apply derive_row_Div. }
  split; [|done].
  destruct (process_data_scored_row _ _ _ _ Hp) as (r & Hr & _).
  eapply column_kept; [done|in_names|done|]. by rewrite Hdiv.
Qed.

(** X7: the identifiers of a returned table are the identifiers drawn by
    the call, in the order of the rows: row [i] carries the first eight
    characters of the [i]-th draw (eight characters exactly when the source
    yields at least eight), and the call draws one identifier per row. *)
Theorem game_ids_are_the_draws_in_order wc w w' df :
  _process_data parse_datetime uuid4_hex cities wc w = (w', Ok df) →
  "game_id" ∈ columns df
  ∧ uuid_draws w' = (uuid_draws w + length (rows df))%nat
  ∧ ∀ i r, rows df !! i = Some r →
      cell r "game_id" = VStr (first8 (uuid4_hex (uuid_draws w + i)%nat))
      ∧ ((8 ≤ String.length (uuid4_hex (uuid_draws w + i)%nat))%nat →
         String.length (first8 (uuid4_hex (uuid_draws w + i)%nat)) = 8%nat).
Proof.
  intros Hp. split_and!.
  - pose proof Hp as (? & ? & ? & ? & _ & _ & _ & _ & _ & _ & Hpost)%process_data_inv.
    cbv zeta in Hpost. destruct Hpost as (_ & -> & _). apply elem_of_reorder. by left.
  - pose proof Hp as (base & Hb & Hlen & _)%process_data_rows.
    pose proof Hp as (w1 & d & Hm & _ & _ & ->)%process_data_Ok.
    rewrite merged_frame_run, Hb in Hm. simpl in Hm. injection Hm as <- _. simpl.
    by rewrite Hlen.
  - intros i r Hi.
    destruct (process_data_row_at _ _ _ _ _ _ Hp Hi) as (? & ? & ? & ? & _ & _ & _ & _ & ->).
    split; [apply derive_row_game_id|apply first8_length].
Qed.

Lemma to_datetime_cell_shape v date :
  to_datetime_cell parse_datetime v = Ok date → date = NA ∨ ∃ d, date = VDate d.
Proof.
  unfold to_datetime_cell.
  destruct v; try (destruct (parse_datetime _)); intros [= <-]; eauto.
Qed.

(** X8: the [Date] cells of a returned table are timestamps or missing,
    never the raw text of the season tables: a missing date stays missing,
    any other cell is what the date parser makes of it. *)
Theorem date_cells_are_parsed wc w w' df i r :
  _process_data parse_datetime uuid4_hex cities wc w = (w', Ok df) →
  rows df !! i = Some r →
  (cell r "Date" = NA ∨ ∃ d, cell r "Date" = VDate d)
  ∧ ∃ base r0, pd_concat (all_data (self w)) = Ok base ∧ rows base !! i = Some r0
      ∧ to_datetime_cell parse_datetime (cell r0 "Date") = Ok (cell r "Date").
Proof.
  intros Hp Hi.
  destruct (process_data_row_at _ _ _ _ _ _ Hp Hi)
    as (base & r0 & date & tg & Hb & Hr0 & Hd & _ & ->).
  rewrite derive_row_Date. split; [by eapply to_datetime_cell_shape|eauto].
Qed.





End Rows.

(** ** When [_process_data] returns *)

Lemma mapR_Ok_Forall {A B} (f : A → result B) l l' :
  mapR f l = Ok l' → Forall (λ a, is_ok (f a) = true) l.
Proof.
  intros H%mapR_Forall2. induction H as [|a b l k Hab _ IH]; constructor; [|done].
  by rewrite Hab.
Qed.

Lemma series_add_map_Forall {A} (f g : A → value) l tg :
  series_add (map f l) (map g l) = Ok tg →
  Forall (λ a, is_ok (add_value (f a) (g a)) = true) l.
Proof.
  revert tg. induction l as [|a l IH]; intros tg; simpl; [constructor|].
  destruct (add_value (f a) (g a)) as [v|] eqn:Ev; cbn [mbind result_bind]; [|done].
  destruct (series_add (map f l) (map g l)) as [vs|] eqn:Evs; cbn [mbind result_bind]; [|done].
  intros _. constructor; [by rewrite Ev|by eapply IH].
Qed.


Lemma add_value_missing_iff x y v :
  add_value x y = Ok v → isna v = false ↔ isna x = false ∧ isna y = false.
Proof. destruct x, y; simpl; intros [= <-]; simpl; intuition congruence. Qed.

Lemma filter_none {A} (P : A → Prop) `{!∀ x, Decision (P x)} (l : list A) :
  (∀ x, x ∈ l → ¬ P x) → filter P l = [].
Proof.
  induction l as [|a l IH]; intros Hall; [done|].
  rewrite filter_cons, decide_False by (apply Hall; by left).
  apply IH. intros x Hx. apply Hall. by right.
Qed.


Section Returns.

Variable parse_datetime : value → option Timestamp.
Variable uuid4_hex : nat → string.
Variable cities : gmap string City.

Lemma enrich_run lg base gid dates tg :
  (∀ c, c ∈ ["FTHG"; "FTAG"; "HomeTeam"; "Date"] → c ∈ columns base) →
  to_datetime parse_datetime (map (λ r, cell r "Date") (rows base)) = Ok dates →
  series_add (map (λ r, cell r "FTHG") (rows base))
             (map (λ r, cell r "FTAG") (rows base)) = Ok tg →
  length gid = length (rows base) →
  enrich parse_datetime cities lg base gid
  = Ok (dropna_all_columns
          (assigned lg base dates gid tg
             (city_series cities (λ c, VStr (name c)) base)
             (city_series cities (λ c, VFloat (lat c)) base)
             (city_series cities (λ c, VFloat (lon c)) base))).
Proof.
  intros Hcols Hd Ht Hlen. unfold enrich, getitem.
  rewrite !decide_True by (apply Hcols; rewrite !elem_of_cons; auto 6).
  cbn [mbind result_bind]. rewrite Ht. cbn [mbind result_bind].
  rewrite derive_eq. unfold getitem.
  rewrite decide_True by (apply Hcols; rewrite !elem_of_cons; auto 6).
  cbn [mbind result_bind]. rewrite Hd. cbn [mbind result_bind].
  by rewrite decide_True.
Qed.

Lemma enrich_Ok_columns lg base gid d :
  enrich parse_datetime cities lg base gid = Ok d →
  ∀ c, c ∈ ["FTHG"; "FTAG"; "HomeTeam"; "Date"] → c ∈ columns base.
Proof.
  unfold enrich.
  destruct (getitem base "FTHG") as [fthg|] eqn:E1; cbn [mbind result_bind]; [|done].
  destruct (getitem base "FTAG") as [ftag|] eqn:E2; cbn [mbind result_bind]; [|done].
  destruct (series_add fthg ftag) as [tg|] eqn:E3; cbn [mbind result_bind]; [|done].
  destruct (getitem base "HomeTeam") as [home|] eqn:E4; cbn [mbind result_bind]; [|done].
  rewrite derive_eq.
  destruct (getitem base "Date") as [date|] eqn:E5; cbn [mbind result_bind]; [|done].
  intros _ c. rewrite !elem_of_cons, elem_of_nil.
  apply getitem_Ok in E1 as [? _]. apply getitem_Ok in E2 as [? _].
  apply getitem_Ok in E4 as [? _]. apply getitem_Ok in E5 as [? _].
  by intros [->|[->|[->|[->|[]]]]].
Qed.

(** X10: [_process_data] returns a table only when the accumulation is
    not empty and its concatenation is processable: the columns FTHG, FTAG,
    HomeTeam and Date exist, every date parses, every pair of goal counts
    adds up, and at least one row has both goal counts.  When one of these
    fails, it raises. *)
Theorem process_data_returns_only_if wc w :
  is_ok (_process_data parse_datetime uuid4_hex cities wc w).2 = true →
  ∃ base, pd_concat (all_data (self w)) = Ok base ∧ processable parse_datetime base.
Proof.
  destruct (_process_data parse_datetime uuid4_hex cities wc w) as [w' [df|]] eqn:Hp; [|done].
  intros _.
  pose proof Hp as (base & dates & tg & gid & Hb & Hd & Ht & _ & _ & _ & Hpost)%process_data_inv.
  cbv zeta in Hpost. destruct Hpost as (Hm & _ & _ & _ & HT).
  exists base. split; [done|]. split_and!.
  - rewrite merged_frame_run, Hb in Hm. simpl in Hm. by eapply enrich_Ok_columns.
  - intros r Hr. split.
    + apply mapR_Ok_Forall in Hd. rewrite Forall_fmap, Forall_forall in Hd. by apply Hd.
    + apply series_add_map_Forall in Ht. rewrite Forall_forall in Ht. by apply Ht.
  - apply elem_of_dropna in HT as (_ & r' & Hr' & Hna).
    apply list_elem_of_lookup_1 in Hr' as [i Hi].
    unfold assigned in Hi; simpl in Hi. rewrite list_lookup_imap in Hi.
    destruct (rows base !! i) as [r|] eqn:Er; simpl in Hi; [|done].
    injection Hi as <-. rewrite derive_row_TG in Hna.
    destruct (series_add_lookup _ _ _ i (cell r "FTHG") (cell r "FTAG") Ht)
      as (v & Hvi & Hv); [by rewrite list_lookup_fmap, Er..|].
    unfold at_ in Hna. rewrite Hvi in Hna. simpl in Hna.
    exists r. split; [by eapply list_elem_of_lookup_2|].
    by apply (add_value_missing_iff _ _ _ Hv).
Qed.

(** X11: season tables without a single row do not give an empty table.
    When the accumulated tables have the columns that are read but no row,
    every column is dropped as all-missing and the final column selection
    raises a [KeyError] for [game_id] and [TG]. *)
Theorem no_row_raises_key_error wc w base :
  pd_concat (all_data (self w)) = Ok base →
  (∀ c, c ∈ ["FTHG"; "FTAG"; "HomeTeam"; "Date"] → c ∈ columns base) →
  rows base = [] →
  (_process_data parse_datetime uuid4_hex cities wc w).2
  = Raise (KeyError ["game_id"; "TG"]).
Proof.
  intros Hb Hcols Hrows.
  unfold _process_data, mbind, M_bind, lift. rewrite merged_frame_run, Hb. cbv zeta.
  cbn [fst snd].
  rewrite (enrich_run _ _ _ [] []); rewrite ?Hrows; try done.
  unfold dropna_all_columns, all_missing, assigned. simpl. rewrite Hrows. simpl.
  assert (∀ l : list string, filter (λ _ : string, true = false) l = []) as ->.
  { intros l. apply filter_none. done. }
  reflexivity.
Qed.

End Returns.

(** ** More on the team statistics *)

Lemma sumZ_add {A} (f g : A → Z) l :
  sumZ (map (λ a, f a + g a) l) = sumZ (map f l) + sumZ (map g l).
Proof. induction l as [|a l IH]; simpl; [done|]. rewrite IH. lia. Qed.

Lemma sumZ_ext {A} (f g : A → Z) l :
  (∀ a, a ∈ l → f a = g a) → sumZ (map f l) = sumZ (map g l).
Proof.
  induction l as [|a l IH]; intros H; simpl; [done|].
  rewrite (H a) by (by left). rewrite IH; [done|]. intros b Hb. apply H. by right.
Qed.

Lemma sumZ_zero {A} (l : list A) : sumZ (map (λ _, 0) l) = 0.
Proof. induction l as [|a l IH]; simpl; [done|]. by rewrite IH. Qed.

Lemma sumZ_indicator (t0 : string) (keys : list string) :
  NoDup keys → t0 ∈ keys →
  sumZ (map (λ t, if decide (t = t0) then 1 else 0) keys) = 1.
Proof.
  induction 1 as [|t keys Hnin Hnd IH]; intros Hin; [by apply elem_of_nil in Hin|].
  simpl. destruct (decide (t = t0)) as [->|Hne].
  - rewrite (sumZ_ext _ (λ _, 0)), sumZ_zero; [done|].
    intros t Ht. rewrite decide_False; [done|]. intros ->. done.
  - apply elem_of_cons in Hin as [->|Hin]; [done|]. by rewrite IH.
Qed.

(** Grouping by key loses and repeats no row: over distinct keys that
    cover the table, the group sizes add up to the number of keyed rows. *)
Lemma groups_partition (key : gmap string value → option string)
    (Q : gmap string value → Prop) `{!∀ r, Decision (Q r)}
    (keys : list string) (rs : list (gmap string value)) :
  NoDup keys →
  (∀ r t, r ∈ rs → key r = Some t → t ∈ keys) →
  sumZ (map (λ t, Z.of_nat (length (filter Q (filter (λ r, key r = Some t) rs)))) keys)
  = Z.of_nat (length (filter Q (filter (λ r, is_Some (key r)) rs))).
Proof.
  intros Hnd. induction rs as [|r rs IH]; intros Hcov.
  - simpl. apply sumZ_zero.
  - assert (∀ r' t, r' ∈ rs → key r' = Some t → t ∈ keys) as Hcov'.
    { intros r' t Hr'. apply Hcov. by right. }
    specialize (IH Hcov'). rewrite (filter_cons (λ r, is_Some (key r))).
    destruct (key r) as [t0|] eqn:Ek.
    + rewrite decide_True by eauto. rewrite (filter_cons Q).
      assert (t0 ∈ keys) as Ht0 by (eapply Hcov; [by left|done]).
      destruct (decide (Q r)) as [HQ|HQ].
      * rewrite (sumZ_ext _ (λ t, (if decide (t = t0) then 1 else 0)
           + Z.of_nat (length (filter Q (filter (λ r, key r = Some t) rs))))).
        { rewrite sumZ_add, IH, sumZ_indicator by done. simpl. lia. }
        intros t _. rewrite filter_cons, Ek.
        destruct (decide (t = t0)) as [->|Hne].
        -- rewrite decide_True by done. rewrite filter_cons, decide_True by done.
           simpl. lia.
        -- rewrite decide_False by congruence. done.
      * rewrite <- IH. apply sumZ_ext. intros t _. rewrite filter_cons, Ek.
        destruct (decide (Some t0 = Some t)); [|done].
        by rewrite filter_cons, decide_False.
    + rewrite decide_False by (by intros [? ?]).
      rewrite <- IH. apply sumZ_ext. intros t _. rewrite filter_cons, Ek.
      by rewrite decide_False.
Qed.

Lemma filter_exclusive {A} (P Q : A → Prop) `{!∀ x, Decision (P x)} `{!∀ x, Decision (Q x)}
    (l : list A) :
  (∀ x, P x → Q x → False) →
  (length (filter P l) + length (filter Q l) ≤ length l)%nat.
Proof.
  intros Hex. induction l as [|a l IH]; simpl; [done|].
  rewrite !filter_cons.
  destruct (decide (P a)), (decide (Q a)); simpl; try lia. exfalso. eauto.
Qed.

Lemma eq_code_exclusive c1 c2 v :
  c1 ≠ c2 → eq_code c1 v = true → eq_code c2 v = true → False.
Proof.
  intros Hne. destruct v; simpl; try done.
  intros H1%bool_decide_eq_true H2%bool_decide_eq_true. congruence.
Qed.

Lemma sum_cells_Ok_iff vs :
  is_ok (sum_cells vs) = true ↔ Forall (λ v, is_number v = true) vs.
Proof.
  split.
  - induction vs as [|v vs IH]; simpl; [constructor|].
    destruct (sum_cells vs) as [q|]; cbn [mbind result_bind]; [|done].
    intros Hv. constructor; [by destruct v|by apply IH].
  - intros [q ->]%sum_cells_total. done.
Qed.

Lemma elem_of_group_rows df by_ t r :
  r ∈ group_rows df by_ t ↔ r ∈ rows df ∧ team_key (cell r by_) = Some t.
Proof. unfold group_rows. rewrite list_elem_of_filter. tauto. Qed.

(** The counts of a side of the merged frame. *)
Lemma side_of_counts df by_ win goals_col hs t :
  groupby_agg df by_ win goals_col = Ok hs →
  Games (side_of hs t) = Z.of_nat (length (group_rows df by_ t))
  ∧ Wins (side_of hs t) = count_code win (group_rows df by_ t)
  ∧ Draws (side_of hs t) = count_code "D" (group_rows df by_ t).
Proof.
  intros Hg. destruct (side_of_spec _ _ _ _ _ Hg t) as [[-> Hn]|[_ Hs]].
  - rewrite group_rows_nil; [done|].
    by rewrite <- elem_of_group_keys, <- (groupby_agg_keys _ _ _ _ _ Hg).
  - unfold agg_group in Hs.
    destruct (sum_cells _) as [q|]; cbn [mbind result_bind] in Hs; [|done].
    injection Hs as <-. done.
Qed.

Lemma groupby_agg_Ok_inv df by_ win goals_col :
  is_ok (groupby_agg df by_ win goals_col) = true →
  by_ ∈ columns df ∧ "FTR" ∈ columns df ∧ goals_col ∈ columns df
  ∧ ∀ r, r ∈ rows df → is_Some (team_key (cell r by_)) →
         is_number (cell r goals_col) = true.
Proof.
  destruct (groupby_agg df by_ win goals_col) as [hs|] eqn:Hg; [|done]. intros _.
  pose proof (groupby_agg_inv _ _ _ _ _ Hg) as Hinv.
  unfold groupby_agg in Hg.
  destruct (decide (by_ ∈ columns df)) as [Hby|]; [|done].
  destruct (filter _ [goals_col; "FTR"]) as [|c0 l0] eqn:Ef; [|done].
  assert (∀ c, c ∈ [goals_col; "FTR"] → c ∈ columns df) as Hc.
  { intros c Hc. destruct (decide (c ∈ columns df)) as [|Hn]; [done|].
    assert (c ∈ filter (λ c, c ∉ columns df) [goals_col; "FTR"]) as Hin
      by (by apply list_elem_of_filter).
    rewrite Ef in Hin. by apply elem_of_nil in Hin. }
  split_and!; [done|apply Hc; right; by left|apply Hc; by left|].
  intros r Hr [t Ht].
  assert (t ∈ group_keys df by_) as Hk.
  { apply elem_of_group_keys. exists r. by apply team_key_Some in Ht. }
  destruct (list_elem_of_lookup_1 _ _ Hk) as [i Hi].
  destruct (Forall2_lookup_l _ _ _ _ _ Hinv Hi) as (p & _ & s & Hs & _).
  unfold agg_group in Hs.
  destruct (sum_cells _) as [q|] eqn:Eq; cbn [mbind result_bind] in Hs; [|done].
  assert (is_ok (sum_cells (map (λ r, cell r goals_col) (group_rows df by_ t))) = true)
    as Hok by (by rewrite Eq).
  apply sum_cells_Ok_iff in Hok. rewrite Forall_fmap, Forall_forall in Hok.
  apply Hok. by apply elem_of_group_rows.
Qed.

(** X12: [compute_team_statistics] returns only on countable tables: the
    columns HomeTeam, AwayTeam, FTR, FTHG and FTAG exist, and every row
    that names a home (away) team has a number or nothing as home (away)
    goals.  On a table that is not countable it raises. *)
Theorem team_statistics_returns_only_if df :
  is_ok (compute_team_statistics df) = true → countable df.
Proof.
  unfold compute_team_statistics, countable.
  pose proof (groupby_agg_Ok_inv df "HomeTeam" "H" "FTHG") as Hh.
  pose proof (groupby_agg_Ok_inv df "AwayTeam" "A" "FTAG") as Ha.
  destruct (groupby_agg df "HomeTeam" "H" "FTHG") as [hs|];
    destruct (groupby_agg df "AwayTeam" "A" "FTAG") as [as_|];
    cbn [mbind result_bind] in *; simpl in *; try done.
  intros _.
  destruct Hh as (?&?&?&Hnh); [done|]. destruct Ha as (?&?&?&Hna); [done|].
  split.
  - intros c. rewrite !elem_of_cons, elem_of_nil. by intros [->|[->|[->|[->|[->|[]]]]]].
  - intros r Hr. split; [by apply Hnh|by apply Hna].
Qed.

Lemma filter_all {A} (l : list A) : filter (λ _, True) l = l.
Proof. induction l as [|a l IH]; [done|]. by rewrite filter_cons, decide_True, IH. Qed.


Section Statistics.

Variable df : DataFrame.
Variable stats : list TeamStats.
Hypothesis Hstats : compute_team_statistics df = Ok stats.

Lemma stats_columns :
  ∃ hs as_,
    groupby_agg df "HomeTeam" "H" "FTHG" = Ok hs
    ∧ groupby_agg df "AwayTeam" "A" "FTAG" = Ok as_
    ∧ map Team stats = outer_index hs as_
    ∧ (∀ f : SideStats → Z,
         map (λ s, f (side_of hs (Team s))) stats
         = map (λ t, f (side_of hs t)) (outer_index hs as_))
    ∧ (∀ f : SideStats → Z,
         map (λ s, f (side_of as_ (Team s))) stats
         = map (λ t, f (side_of as_ t)) (outer_index hs as_))
    ∧ ∀ s, s ∈ stats →
        HomeGames s = Games (side_of hs (Team s))
        ∧ HomeWins s = Wins (side_of hs (Team s))
        ∧ HomeDraws s = Draws (side_of hs (Team s))
        ∧ AwayGames s = Games (side_of as_ (Team s))
        ∧ AwayWins s = Wins (side_of as_ (Team s))
        ∧ AwayDraws s = Draws (side_of as_ (Team s)).
Proof.
  destruct (compute_team_statistics_inv _ _ Hstats) as (hs & as_ & Hh & Ha & ->).
  exists hs, as_. split_and!; try done.
  - clear. induction (outer_index hs as_) as [|t l IH]; simpl; [done|by f_equal].
  - intros f. clear. induction (outer_index hs as_) as [|t l IH]; simpl; [done|by f_equal].
  - intros f. clear. induction (outer_index hs as_) as [|t l IH]; simpl; [done|by f_equal].
  - intros s (t & -> & _)%list_elem_of_fmap. done.
Qed.

Lemma outer_index_covers hs as_ side r t :
  groupby_agg df "HomeTeam" "H" "FTHG" = Ok hs →
  groupby_agg df "AwayTeam" "A" "FTAG" = Ok as_ →
  side = "HomeTeam" ∨ side = "AwayTeam" →
  r ∈ rows df → team_key (cell r side) = Some t → t ∈ outer_index hs as_.
Proof.
  intros Hh Ha Hside Hr Hk. apply elem_of_outer_index.
  rewrite (groupby_agg_keys _ _ _ _ _ Hh), (groupby_agg_keys _ _ _ _ _ Ha).
  rewrite !elem_of_group_keys. apply team_key_Some in Hk.
  destruct Hside as [-> | ->]; [left|right]; by exists r.
Qed.

(** X13: the statistics count every match once on each side.  Over all
    teams, the home games add up to the number of rows that name a home
    team and the away games to the number of rows that name an away team;
    the home wins are the rows of the first kind with result H, the away
    wins the rows of the second kind with result A, and the draws of a side
    the rows of its kind with result D. *)
Theorem games_and_results_add_up :
  sumZ (map HomeGames stats) = Z.of_nat (length (named_rows df "HomeTeam"))
  ∧ sumZ (map AwayGames stats) = Z.of_nat (length (named_rows df "AwayTeam"))
  ∧ sumZ (map HomeWins stats)
    = Z.of_nat (length (rows_with_result "H" (named_rows df "HomeTeam")))
  ∧ sumZ (map AwayWins stats)
    = Z.of_nat (length (rows_with_result "A" (named_rows df "AwayTeam")))
  ∧ sumZ (map HomeDraws stats)
    = Z.of_nat (length (rows_with_result "D" (named_rows df "HomeTeam")))
  ∧ sumZ (map AwayDraws stats)
    = Z.of_nat (length (rows_with_result "D" (named_rows df "AwayTeam"))).
Proof.
  destruct stats_columns as (hs & as_ & Hh & Ha & _ & Hmh & Hma & Hrow).
  pose proof (NoDup_outer_index hs as_) as Hnd.
  assert (∀ side, side = "HomeTeam" ∨ side = "AwayTeam" →
            ∀ r t, r ∈ rows df → team_key (cell r side) = Some t → t ∈ outer_index hs as_)
    as Hcov.
  { intros side Hside r t. by apply outer_index_covers. }
  assert (∀ (hs' : list (string * SideStats)) side win goals_col
            (f : TeamStats → Z) (g : SideStats → Z) (Q : gmap string value → Prop)
            `{!∀ r, Decision (Q r)},
            groupby_agg df side win goals_col = Ok hs' →
            side = "HomeTeam" ∨ side = "AwayTeam" →
            (∀ s, s ∈ stats → f s = g (side_of hs' (Team s))) →
            map (λ s, g (side_of hs' (Team s))) stats
              = map (λ t, g (side_of hs' t)) (outer_index hs as_) →
            (∀ t, g (side_of hs' t)
                  = Z.of_nat (length (filter Q (group_rows df side t)))) →
            sumZ (map f stats)
            = Z.of_nat (length (filter Q (named_rows df side)))) as Hsum.
  { intros hs' side win goals_col f g Q HQ Hg Hside Hf Hmap Hcount.
    rewrite (sumZ_ext f (λ s, g (side_of hs' (Team s)))) by done.
    rewrite Hmap.
    rewrite (sumZ_ext _ (λ t, Z.of_nat (length (filter Q (group_rows df side t)))))
      by (intros t _; apply Hcount).
    unfold group_rows, named_rows.
    apply (groups_partition (λ r, team_key (cell r side)) Q); [done|].
    by apply Hcov. }
  split_and!.
  - rewrite <- (filter_all (named_rows df "HomeTeam")).
    eapply (Hsum hs _ _ _ HomeGames Games (λ _, True)); [exact Hh|by left| |apply Hmh|].
    + intros s Hs. by destruct (Hrow s Hs) as (?&?&?&?&?&?).
    + intros t. rewrite filter_all. by destruct (side_of_counts _ _ _ _ _ t Hh) as (?&?&?).
  - rewrite <- (filter_all (named_rows df "AwayTeam")).
    eapply (Hsum as_ _ _ _ AwayGames Games (λ _, True)); [exact Ha|by right| |apply Hma|].
    + intros s Hs. by destruct (Hrow s Hs) as (?&?&?&?&?&?).
    + intros t. rewrite filter_all. by destruct (side_of_counts _ _ _ _ _ t Ha) as (?&?&?).
  - eapply (Hsum hs _ _ _ HomeWins Wins); [exact Hh|by left| |apply Hmh|].
    + intros s Hs. by destruct (Hrow s Hs) as (?&?&?&?&?&?).
    + intros t. by destruct (side_of_counts _ _ _ _ _ t Hh) as (?&?&?).
  - eapply (Hsum as_ _ _ _ AwayWins Wins); [exact Ha|by right| |apply Hma|].
    + intros s Hs. by destruct (Hrow s Hs) as (?&?&?&?&?&?).
    + intros t. by destruct (side_of_counts _ _ _ _ _ t Ha) as (?&?&?).
  - eapply (Hsum hs _ _ _ HomeDraws Draws); [exact Hh|by left| |apply Hmh|].
    + intros s Hs. by destruct (Hrow s Hs) as (?&?&?&?&?&?).
    + intros t. by destruct (side_of_counts _ _ _ _ _ t Hh) as (?&?&?).
  - eapply (Hsum as_ _ _ _ AwayDraws Draws); [exact Ha|by right| |apply Hma|].
    + intros s Hs. by destruct (Hrow s Hs) as (?&?&?&?&?&?).
    + intros t. by destruct (side_of_counts _ _ _ _ _ t Ha) as (?&?&?).
Qed.

(** X14: a match is won or drawn, never both: for every team the wins and
    the draws of a side together do not exceed its games on that side, and
    so the total wins and draws do not exceed the total games. *)
Theorem wins_and_draws_within_games s :
  s ∈ stats →
  HomeWins s + HomeDraws s ≤ HomeGames s
  ∧ AwayWins s + AwayDraws s ≤ AwayGames s
  ∧ TotalWins s + TotalDraws s ≤ TotalGames s.
Proof.
  intros Hs. destruct stats_columns as (hs & as_ & Hh & Ha & _ & _ & _ & Hrow).
  destruct (Hrow s Hs) as (-> & -> & -> & -> & -> & ->).
  destruct (side_of_counts _ _ _ _ _ (Team s) Hh) as (Hg1 & Hw1 & Hd1).
  destruct (side_of_counts _ _ _ _ _ (Team s) Ha) as (Hg2 & Hw2 & Hd2).
  assert (∀ win g, win ≠ "D" → count_code win g + count_code "D" g ≤ Z.of_nat (length g))
    as Hex.
  { intros win g Hne. unfold count_code.
    pose proof (filter_exclusive (λ r, eq_code win (cell r "FTR") = true)
                  (λ r, eq_code "D" (cell r "FTR") = true) g) as Hle.
    specialize (Hle (λ r, eq_code_exclusive win "D" _ Hne)). lia. }
  pose proof (Hex "H" (group_rows df "HomeTeam" (Team s)) ltac:(done)).
  pose proof (Hex "A" (group_rows df "AwayTeam" (Team s)) ltac:(done)).
  assert (TotalWins s = Wins (side_of hs (Team s)) + Wins (side_of as_ (Team s))
          ∧ TotalDraws s = Draws (side_of hs (Team s)) + Draws (side_of as_ (Team s))
          ∧ TotalGames s = Games (side_of hs (Team s)) + Games (side_of as_ (Team s)))
    as (-> & -> & ->).
  { destruct (compute_team_statistics_inv _ _ Hstats) as (hs' & as' & Hh' & Ha' & Heq).
    rewrite Hh in Hh'. injection Hh' as <-. rewrite Ha in Ha'. injection Ha' as <-.
    rewrite Heq in Hs. apply list_elem_of_fmap in Hs as (t & -> & _). done. }
  lia.
Qed.


End Statistics.

(** ** The further properties on the concrete archives *)


Lemma div_is_the_league_witness : "Div" ∈ columns Demo.table.
Proof.
  assert (Demo.process false Demo.loaded
          = ((Demo.process false Demo.loaded).1, Ok Demo.table)) as Hrun by by_evaluation.
  exact (proj1 (div_is_the_league Demo.parse_datetime Demo.uuid4_hex Demo.cities
                  false Demo.loaded _ Demo.table Hrun)).
Defined.

Lemma game_ids_are_the_draws_in_order_witness :
  uuid_draws (Demo.process false Demo.loaded).1
  = (uuid_draws Demo.loaded + length (rows Demo.table))%nat.
Proof.
  assert (Demo.process false Demo.loaded
          = ((Demo.process false Demo.loaded).1, Ok Demo.table)) as Hrun by by_evaluation.
  exact (proj1 (proj2 (game_ids_are_the_draws_in_order Demo.parse_datetime Demo.uuid4_hex
                         Demo.cities false Demo.loaded _ Demo.table Hrun))).
Defined.

Lemma date_cells_are_parsed_witness :
  cell (Demo.row_at 0) "Date" = NA ∨ ∃ d, cell (Demo.row_at 0) "Date" = VDate d.
Proof.
  assert (Demo.process false Demo.loaded
          = ((Demo.process false Demo.loaded).1, Ok Demo.table)) as Hrun by by_evaluation.
  assert (rows Demo.table !! 0%nat = Some (Demo.row_at 0)) as Hrow by by_evaluation.
  exact (proj1 (date_cells_are_parsed Demo.parse_datetime Demo.uuid4_hex Demo.cities
                  false Demo.loaded _ Demo.table 0%nat (Demo.row_at 0) Hrun Hrow)).
Defined.


Lemma process_data_returns_only_if_witness :
  ∃ base, pd_concat (all_data (self Demo.loaded)) = Ok base
          ∧ processable Demo.parse_datetime base.
Proof.
  apply (process_data_returns_only_if Demo.parse_datetime Demo.uuid4_hex Demo.cities
           false Demo.loaded).
  by_evaluation.
Defined.

Lemma team_statistics_returns_only_if_witness : countable Demo.season_2021.
Proof.
  apply (team_statistics_returns_only_if Demo.season_2021). by_evaluation.
Defined.

Lemma no_row_raises_key_error_witness :
  (Demo.process true Damaged.loaded_header_only).2 = Raise (KeyError ["game_id"; "TG"]).
Proof.
  apply (no_row_raises_key_error Demo.parse_datetime Demo.uuid4_hex Demo.cities true
           Damaged.loaded_header_only Damaged.header_only).
  - reflexivity.
  - intros c Hc. unfold Damaged.header_only. simpl.
    rewrite !elem_of_cons in Hc. rewrite !elem_of_cons.
    destruct Hc as [->|[->|[->|[->|Hc]]]]; [auto 8..|by apply elem_of_nil in Hc].
  - reflexivity.
Defined.

Lemma games_and_results_add_up_witness :
  sumZ (map HomeGames Demo.stats)
  = Z.of_nat (length (named_rows Demo.season_2021 "HomeTeam")).
Proof.
  assert (compute_team_statistics Demo.season_2021 = Ok Demo.stats) as Hs by by_evaluation.
  exact (proj1 (games_and_results_add_up Demo.season_2021 Demo.stats Hs)).
Defined.

Lemma wins_and_draws_within_games_witness :
  ∃ s, Demo.stats !! 0%nat = Some s ∧ TotalWins s + TotalDraws s ≤ TotalGames s.
Proof.
  assert (compute_team_statistics Demo.season_2021 = Ok Demo.stats) as Hs by by_evaluation.
  eexists. split; [reflexivity|].
  eapply (wins_and_draws_within_games Demo.season_2021 Demo.stats Hs).
  apply (list_elem_of_lookup_2 _ 0%nat). reflexivity.
Defined.


(** ** Reports, repetition and columns *)

Lemma printed_app t1 t2 : printed (t1 ++ t2) = printed t1 ++ printed t2.
Proof. unfold printed. apply omap_app. Qed.

Section Reports.

Variable remote : string → http_outcome.
Variable read_csv : string → result DataFrame.
Variable parse_datetime : value → option Timestamp.
Variable uuid4_hex : nat → string.
Variable cities : gmap string City.

Lemma fetch_year_printed year w :
  league (self w) = "serie_a" ∨ league (self w) = "epl" →
  length (printed (trace (fetch_year remote read_csv year w).1))
  = (length (printed (trace w))
     + one_if (fetch_failed remote (league (self w)) year))%nat.
Proof.
  intros Hl. unfold fetch_failed.
  unfold fetch_year, requests_get, print, emit, get_self, lift,
    append_all_data, mbind, M_bind, mret, M_ret; simpl.
  rewrite (construct_url_supported _ _ Hl). simpl.
  destruct (remote _) as [status_code text|msg]; simpl.
  - destruct (decide (status_code = 200)) as [H200|H200]; simpl.
    + rewrite bool_decide_eq_true_2 by done. simpl.
      destruct (read_csv text) as [df|e]; simpl;
        rewrite printed_app, length_app; simpl; lia.
    + rewrite bool_decide_eq_false_2 by done. simpl.
      rewrite !printed_app, !length_app. simpl. lia.
  - rewrite !printed_app, !length_app. simpl. lia.
Qed.

Lemma fetch_years_printed years w :
  league (self w) = "serie_a" ∨ league (self w) = "epl" →
  Forall (λ y, is_ok (season_table remote read_csv (league (self w)) y) = true) years →
  length (printed (trace (fetch_years remote read_csv years w).1))
  = (length (printed (trace w))
     + length (filter (λ y, fetch_failed remote (league (self w)) y = true) years))%nat.
Proof.
  intros Hl Hok. revert w Hl Hok.
  induction years as [|y years IH]; intros w Hl Hok; simpl; [lia|].
  apply Forall_cons in Hok as [Hy Hok].
  pose proof (fetch_year_printed y w Hl) as Hp.
  pose proof (fetch_year_outside remote read_csv y w Hl) as (_ & _ & Hres). cbv zeta in Hres.
  pose proof (fetch_year_spec remote read_csv y w) as (Hlg & _). cbv zeta in Hlg.
  unfold mbind, M_bind.
  destruct (fetch_year remote read_csv y w) as [w1 [[]|e]]; simpl in *.
  - rewrite IH by (by rewrite Hlg). rewrite Hp, Hlg. rewrite filter_cons.
    destruct (decide (fetch_failed remote (league (self w)) y = true)) as [Hd|Hd].
    + rewrite Hd. simpl. lia.
    + apply not_true_is_false in Hd. rewrite Hd. simpl. lia.
  - destruct (season_table _ _ _ y); simpl in *; done.
Qed.

Lemma process_data_printed wc w :
  let out := _process_data parse_datetime uuid4_hex cities wc w in
  length (printed (trace out.1))
  = (length (printed (trace w)) + one_if (wc && is_ok out.2))%nat.
Proof.
  cbv zeta. unfold _process_data, mbind, M_bind, lift. rewrite merged_frame_run.
  destruct (pd_concat (all_data (self w))) as [base|]; simpl;
    [|rewrite andb_false_r; simpl; lia].
  destruct (enrich _ _ _ _ _) as [d|]; simpl; [|rewrite andb_false_r; simpl; lia].
  destruct (select _ d) as [df|]; simpl; [|rewrite andb_false_r; simpl; lia].
  destruct wc; simpl.
  - rewrite !printed_app, !length_app. simpl. lia.
  - lia.
Qed.

(** X16: failed seasons are reported, and nothing else is.  For a supported
    league, as long as every body that arrives reads as a table,
    [collect_data] prints one line for each year of the range whose request
    raises or is answered with a status other than 200, no line for the
    others, and one more line when it wrote the file. *)
Theorem one_report_per_failed_season year_start year_end wc w :
  league (self w) = "serie_a" ∨ league (self w) = "epl" →
  (∀ y, year_start ≤ y ≤ year_end →
        is_ok (season_table remote read_csv (league (self w)) y) = true) →
  let out := collect_data remote read_csv parse_datetime uuid4_hex cities
               year_start year_end wc w in
  length (printed (trace out.1))
  = (length (printed (trace w))
     + length (filter (λ y, fetch_failed remote (league (self w)) y = true)
                 (range year_start (year_end + 1)))
     + one_if (wc && is_ok out.2))%nat.
Proof.
  intros Hl Hok. cbv zeta. rewrite collect_data_run.
  assert (Forall (λ y, is_ok (season_table remote read_csv (league (self w)) y) = true)
            (range year_start (year_end + 1))) as HF.
  { apply Forall_forall. intros y Hy%elem_of_range. apply Hok. lia. }
  pose proof (fetch_years_printed _ w Hl HF) as Hp.
  destruct (fetch_years_outside remote read_csv _ w Hl HF) as (Hr & _).
  destruct (fetch_years _ _ _ w) as [w1 [[]|e]]; simpl in *; [|done].
  pose proof (process_data_printed wc w1) as Hq. cbv zeta in Hq. rewrite Hq, Hp. lia.
Qed.

(** X17: the merge step can be repeated.  [_process_data] leaves the
    collector as it is and sends no request, so running it again right
    after returns the same table (or raises the same error), the
    identifiers apart. *)
Theorem merge_step_is_repeatable wc w :
  let out := _process_data parse_datetime uuid4_hex cities wc w in
  self out.1 = self w
  ∧ requests (trace out.1) = requests (trace w)
  ∧ same_except_game_id out.2
      (_process_data parse_datetime uuid4_hex cities wc out.1).2.
Proof.
  cbv zeta. split_and!.
  - apply process_data_self.
  - apply (process_data_outside parse_datetime uuid4_hex cities wc w).
  - apply process_data_same. symmetry. apply process_data_self.
Qed.

End Reports.
Lemma one_report_per_failed_season_witness :
  length (printed (trace (collect_data Demo.remote Demo.read_csv Demo.parse_datetime
                            Demo.uuid4_hex Demo.cities 2020 2022 true
                            (Demo.fresh "epl")).1)) = 3%nat.
Proof.
  etransitivity.
  - apply (one_report_per_failed_season Demo.remote Demo.read_csv Demo.parse_datetime
             Demo.uuid4_hex Demo.cities 2020 2022 true (Demo.fresh "epl")).
    + by right.
    + intros y Hy.
      assert (y = 2020 ∨ y = 2021 ∨ y = 2022) as [->|[->| ->]] by lia; by_evaluation.
  - by_evaluation.
Defined.

Lemma group_rows_played df by_ t :
  plays df by_ t → (1 ≤ length (group_rows df by_ t))%nat.
Proof.
  intros (r & Hr & Hc).
  assert (r ∈ group_rows df by_ t) as Hin.
  { apply elem_of_group_rows. split; [done|]. by apply team_key_Some. }
  destruct (group_rows df by_ t); [by apply elem_of_nil in Hin|simpl; lia].
Qed.

(** X18: every team listed in the statistics has played.  Its total number
    of games is at least one, so the ratios over the total games are never
    undefined: WinRatio and DrawRatio always lie in [0, 1]. *)
Theorem every_listed_team_has_played df stats s :
  compute_team_statistics df = Ok stats → s ∈ stats →
  1 ≤ TotalGames s
  ∧ in_unit_interval (WinRatio s) ∧ in_unit_interval (DrawRatio s).
Proof.
  intros (hs & as_ & Hh & Ha & ->)%compute_team_statistics_inv
    (t & -> & Ht)%list_elem_of_fmap.
  pose proof (side_of_wf _ _ _ _ _ Hh t) as (Hg1 & Hw1 & Hd1 & _).
  pose proof (side_of_wf _ _ _ _ _ Ha t) as (Hg2 & Hw2 & Hd2 & _).
  cbv zeta in Hg1, Hg2, Hw1, Hw2, Hd1, Hd2.
  assert (1 ≤ Games (side_of hs t) + Games (side_of as_ t)) as Hone.
  { apply elem_of_outer_index in Ht.
    rewrite (groupby_agg_keys _ _ _ _ _ Hh), (groupby_agg_keys _ _ _ _ _ Ha) in Ht.
    rewrite !elem_of_group_keys in Ht.
    destruct Ht as [Hp%group_rows_played|Hp%group_rows_played]; lia. }
  simpl. split_and!; [done|apply fdiv_counts; lia..].
Qed.

Lemma every_listed_team_has_played_witness :
  ∃ s, Demo.stats !! 2%nat = Some s ∧ 1 ≤ TotalGames s.
Proof.
  assert (compute_team_statistics Demo.season_2021 = Ok Demo.stats) as Hs by by_evaluation.
  eexists. split; [reflexivity|].
  eapply (every_listed_team_has_played Demo.season_2021 Demo.stats _ Hs).
  apply (list_elem_of_lookup_2 _ 2%nat). reflexivity.
Defined.

Lemma NoDup_union_columns acc cols :
  NoDup acc → NoDup cols → NoDup (union_columns acc cols).
Proof.
  intros Ha Hc. unfold union_columns. apply NoDup_app. split_and!; [done| |].
  - intros c Hin [Hn _]%list_elem_of_filter. done.
  - by apply NoDup_filter.
Qed.

Lemma NoDup_foldl_union_columns acc l :
  NoDup acc → Forall NoDup l → NoDup (foldl union_columns acc l).
Proof.
  revert acc. induction l as [|cols l IH]; intros acc Ha Hl; simpl; [done|].
  apply Forall_cons in Hl as [Hc Hl]. apply IH; [|done]. by apply NoDup_union_columns.
Qed.

Lemma NoDup_with_column c cols : NoDup cols → NoDup (with_column c cols).
Proof.
  intros Hnd. unfold with_column. destruct (decide (c ∈ cols)) as [|Hn]; [done|].
  apply NoDup_app. split_and!; [done| |apply NoDup_singleton].
  intros x Hx ->%list_elem_of_singleton. done.
Qed.

Lemma filter_keeps_all {A} (P : A → Prop) `{!∀ x, Decision (P x)} (l : list A) :
  (∀ x, x ∈ l → P x) → filter P l = l.
Proof.
  induction l as [|a l IH]; intros Hall; [done|].
  rewrite filter_cons, decide_True by (apply Hall; by left).
  f_equal. apply IH. intros x Hx. apply Hall. by right.
Qed.

Lemma NoDup_remove (x : string) (l : list string) :
  NoDup l → x ∈ l → l ≡ₚ x :: filter (λ y, y ≠ x) l.
Proof.
  induction 1 as [|a l Hnin Hnd IH]; intros Hin; [by apply elem_of_nil in Hin|].
  rewrite filter_cons. destruct (decide (a ≠ x)) as [Hne|Heq].
  - apply elem_of_cons in Hin as [->|Hin]; [done|].
    rewrite (IH Hin) at 1. apply perm_swap.
  - apply dec_stable in Heq as ->. f_equiv.
    rewrite filter_keeps_all; [done|]. intros y Hy ->. done.
Qed.

(** The reordered labels are the labels, each once. *)
Lemma reorder_Permutation cols :
  NoDup cols → "game_id" ∈ cols → "TG" ∈ cols → reorder cols ≡ₚ cols.
Proof.
  intros Hnd Hg Ht. rewrite reorder_eq.
  set (others := filter (λ c, c ≠ "game_id" ∧ c ≠ "TG") cols).
  transitivity ("game_id" :: "TG" :: others).
  { apply perm_skip. rewrite <- Permutation_middle. by rewrite take_drop. }
  symmetry. etransitivity; [apply (NoDup_remove "TG" cols Hnd Ht)|].
  assert ("game_id" ∈ filter (λ y, y ≠ "TG") cols) as Hg'.
  { apply list_elem_of_filter. done. }
  etransitivity; [apply perm_skip, (NoDup_remove "game_id" _ (NoDup_filter _ _ Hnd) Hg')|].
  etransitivity; [apply perm_swap|]. do 2 apply perm_skip.
  unfold others. rewrite list_filter_filter.
  apply reflexive_eq, list_filter_iff. intros c. tauto.
Qed.

Lemma NoDup_pd_concat_columns frames base :
  pd_concat frames = Ok base →
  (∀ frame, frame ∈ frames → NoDup (columns frame)) → NoDup (columns base).
Proof.
  destruct frames as [|df0 frames]; [done|]. intros [= <-] Hnd.
  change (NoDup (foldl union_columns [] (map columns (df0 :: frames)))).
  apply NoDup_foldl_union_columns; [apply NoDup_nil_2|].
  apply Forall_fmap, Forall_forall. intros frame Hf. by apply Hnd.
Qed.

Section Columns.

Variable parse_datetime : value → option Timestamp.
Variable uuid4_hex : nat → string.
Variable cities : gmap string City.

(** X19: reordering loses and repeats no column.  When no season table has
    a label twice, the labels of a returned table are pairwise distinct and
    are exactly the labels of the post-derivation table, in another
    order. *)
Theorem reordering_permutes_the_columns wc w w' df :
  _process_data parse_datetime uuid4_hex cities wc w = (w', Ok df) →
  (∀ frame, frame ∈ all_data (self w) → NoDup (columns frame)) →
  NoDup (columns df)
  ∧ ∃ post, (merged_frame parse_datetime uuid4_hex cities w).2 = Ok post
            ∧ columns df ≡ₚ columns post.
Proof.
  intros (base & dates & tg & gid & Hb & _ & _ & _ & _ & _ & Hpost)%process_data_inv Hnd.
  cbv zeta in Hpost. destruct Hpost as (Hm & Hcols & _ & Hg & HT).
  set (post := dropna_all_columns _) in *.
  assert (NoDup (columns post)) as Hpnd.
  { unfold post, dropna_all_columns, assigned. simpl. apply NoDup_filter.
    do 8 apply NoDup_with_column. by eapply NoDup_pd_concat_columns. }
  pose proof (reorder_Permutation _ Hpnd Hg HT) as Hperm.
  split.
  - rewrite Hcols, Hperm. done.
  - exists post. split; [done|]. by rewrite Hcols.
Qed.

(** X20: a returned table has no column that is missing in every row.  In
    particular, when no row has a home team that is a key of the city
    reference, the table has no [city_name], [lat] or [lon] column at
    all. *)
Theorem no_column_is_all_missing wc w w' df :
  _process_data parse_datetime uuid4_hex cities wc w = (w', Ok df) →
  (∀ c, c ∈ columns df → ∃ r, r ∈ rows df ∧ isna (cell r c) = false)
  ∧ ((∀ r s, r ∈ rows df → cell r "HomeTeam" = VStr s → cities !! s = None) →
     ¬ ("city_name" ∈ columns df) ∧ ¬ ("lat" ∈ columns df) ∧ ¬ ("lon" ∈ columns df)).
Proof.
  intros Hp.
  assert (∀ c, c ∈ columns df → ∃ r, r ∈ rows df ∧ isna (cell r c) = false) as Hall.
  { intros c Hc.
    pose proof Hp as (base & dates & tg & gid & _ & _ & _ & _ & _ & _ & Hpost)%process_data_inv.
    cbv zeta in Hpost. destruct Hpost as (_ & Hcols & Hrows & Hg & HT).
    rewrite Hrows. rewrite Hcols in Hc.
    apply elem_of_reorder in Hc as [->|[->|Hc]].
    - by apply elem_of_dropna in Hg as [_ ?].
    - by apply elem_of_dropna in HT as [_ ?].
    - by apply elem_of_dropna in Hc as [_ ?]. }
  split; [done|]. intros Hnone.
  assert (∀ r, r ∈ rows df →
            cell r "city_name" = NA ∧ cell r "lat" = NA ∧ cell r "lon" = NA) as Hna.
  { intros r Hr. pose proof Hr as [i Hi]%list_elem_of_lookup_1.
    destruct (process_data_row_at _ _ _ _ _ _ _ _ _ Hp Hi)
      as (base & r0 & date & tg & _ & _ & _ & _ & Heq).
    assert (cell r "HomeTeam" = cell r0 "HomeTeam") as Hh.
    { rewrite Heq. apply derive_row_other. not_in_names. }
    assert (∀ field, city_lookup cities field (cell r0 "HomeTeam") = NA) as Hlook.
    { intros field. rewrite <- Hh. destruct (cell r "HomeTeam") as [| | |s|] eqn:Es; try done.
      simpl. by rewrite (Hnone r s Hr Es). }
    rewrite Heq, derive_row_city_name, derive_row_lat, derive_row_lon.
    by rewrite !Hlook. }
  split_and!; intros Hc; destruct (Hall _ Hc) as (r & Hr & Hv);
    destruct (Hna r Hr) as (H1 & H2 & H3); rewrite ?H1, ?H2, ?H3 in Hv; done.
Qed.

End Columns.

Lemma reordering_permutes_the_columns_witness :
  NoDup (columns Demo.table)
  ∧ ∃ post, (merged_frame Demo.parse_datetime Demo.uuid4_hex Demo.cities Demo.loaded).2 = Ok post
            ∧ columns Demo.table ≡ₚ columns post.
Proof.
  assert (Demo.process false Demo.loaded
          = ((Demo.process false Demo.loaded).1, Ok Demo.table)) as Hrun by by_evaluation.
  assert (all_data (self Demo.loaded) = [Demo.season_2021]) as Hall by by_evaluation.
  assert (bool_decide (NoDup (columns Demo.season_2021)) = true) as Hnd by by_evaluation.
  apply (reordering_permutes_the_columns Demo.parse_datetime Demo.uuid4_hex Demo.cities
           false Demo.loaded _ Demo.table Hrun).
  intros frame Hf. rewrite Hall in Hf. apply list_elem_of_singleton in Hf as ->.
  by apply bool_decide_eq_true in Hnd.
Defined.

Lemma no_column_is_all_missing_witness :
  (∃ r, r ∈ rows Demo.table ∧ isna (cell r "city_name") = false)
  ∧ ¬ ("lat" ∈ columns (Demo.frame_of
                          (_process_data Demo.parse_datetime Demo.uuid4_hex ∅
                             false Demo.loaded).2)).
Proof.
  assert (Demo.process false Demo.loaded
          = ((Demo.process false Demo.loaded).1, Ok Demo.table)) as Hrun by by_evaluation.
  assert (bool_decide ("city_name" ∈ columns Demo.table) = true) as Hc by by_evaluation.
  apply bool_decide_eq_true in Hc.
  set (out := _process_data Demo.parse_datetime Demo.uuid4_hex ∅ false Demo.loaded).
  assert (out = (out.1, Ok (Demo.frame_of out.2))) as Hnone by by_evaluation.
  split.
  - exact (proj1 (no_column_is_all_missing Demo.parse_datetime Demo.uuid4_hex Demo.cities
                    false Demo.loaded _ Demo.table Hrun) "city_name" Hc).
  - apply (proj2 (no_column_is_all_missing Demo.parse_datetime Demo.uuid4_hex ∅
                    false Demo.loaded _ _ Hnone)).
    intros r s _ _. apply lookup_empty.
Defined.
